(** * Table discovery and value extraction of the Excel processing service

    A shallow embedding of [src/main.py] (class [ExcelProcessor] and the
    HTTP handlers around it) together with the properties of the
    specification that concern it.

    Modelling conventions.
    - A Python [str] is a list of characters ([list ascii]).  Characters are
      the code points below 128: white space is Python's white space in that
      range, [lower] folds [A-Z], a digit is one of [0-9].
    - A Python [float] is an IEEE 754 binary64 number ([spec_float] with
      precision 53 and maximal exponent 1024); a Python [int] is a [Z].
    - A pandas [DataFrame] is the list of its rows and a row is the list of
      its cells, in column order.  A cell is [None], an [int], a [float] or a
      [str]; a missing value is [None] or the float NaN, as [pd.isna] has it.
      A row shorter than the widest row of its frame stands for the row
      padded with missing cells, which is how [pd.DataFrame] builds a frame
      from a list of lists.  A column is stored as int64 when all its cells
      are ints (taken to fit 64 bits), as float64 when it holds numbers and
      missing values only, and as objects otherwise.  Reading a column
      yields the cells as stored; [iterrows] yields each row in the common
      type of the columns, so the integers of a frame that has a float64
      column and no object column come out as floats; [pd.DataFrame] applied
      to a list of rows stores integers and [None] as floats in the float64
      columns.
    - A Python [dict] is an association list in insertion order.
    - A raised exception is the [Raise] outcome of a [result]. *)

From Stdlib Require Import ZArith String List Ascii Bool Lia PeanoNat.
From Stdlib Require Import Floats.SpecFloat Numbers.DecimalString.
Import ListNotations.

Set Implicit Arguments.

(* ------------------------------------------------------------------ *)
(** * Python strings *)

Module PyStr.

Definition str := list ascii.

(** A string literal. *)
Definition lit (s : string) : str := list_ascii_of_string s.

Definition code (c : ascii) : nat := nat_of_ascii c.

(** [c.isspace()]: TAB, LF, VT, FF, CR, the separators FS, GS, RS, US and
    the space. *)
Definition isspace (c : ascii) : bool :=
  ((9 <=? code c) && (code c <=? 13)) || ((28 <=? code c) && (code c <=? 32)).

(** [c.isdigit()] as the regular expression class [\d] sees it. *)
Definition isdigit (c : ascii) : bool :=
  (48 <=? code c) && (code c <=? 57).

Definition isupper (c : ascii) : bool :=
  (65 <=? code c) && (code c <=? 90).

Definition lower_char (c : ascii) : ascii :=
  if isupper c then ascii_of_nat (code c + 32) else c.

(** [s.lower()] *)
Definition lower (s : str) : str := map lower_char s.

Fixpoint dropWhile (p : ascii -> bool) (s : str) : str :=
  match s with
  | [] => []
  | c :: s' => if p c then dropWhile p s' else s
  end.

Definition lstrip (s : str) : str := dropWhile isspace s.
Definition rstrip (s : str) : str := rev (dropWhile isspace (rev s)).

(** [s.strip()] *)
Definition strip (s : str) : str := rstrip (lstrip s).

(** [s.split()]: the maximal runs of characters that are not white space.
    [cur] is the run being read, in reverse. *)
Fixpoint split_from (cur : str) (s : str) : list str :=
  match s with
  | [] => match cur with [] => [] | _ => [rev cur] end
  | c :: s' =>
      if isspace c
      then match cur with
           | [] => split_from [] s'
           | _ => rev cur :: split_from [] s'
           end
      else split_from (c :: cur) s'
  end.

Definition split (s : str) : list str := split_from [] s.

Definition eqb (a b : str) : bool :=
  if list_eq_dec ascii_dec a b then true else false.

Fixpoint startswith (s k : str) : bool :=
  match k, s with
  | [], _ => true
  | _ :: _, [] => false
  | a :: k', b :: s' => Ascii.eqb a b && startswith s' k'
  end.

(** [k in s] *)
Fixpoint contains (k s : str) : bool :=
  startswith s k ||
  match s with
  | [] => false
  | _ :: s' => contains k s'
  end.

(** [sep.join(parts)] *)
Fixpoint join (sep : str) (parts : list str) : str :=
  match parts with
  | [] => []
  | [p] => p
  | p :: ps => p ++ sep ++ join sep ps
  end.

(** [str(z)] for an [int]. *)
Definition of_int (z : Z) : str := lit (NilZero.string_of_int (Z.to_int z)).

(** Truth value of a string: the empty string is false. *)
Definition truthy (s : str) : bool :=
  match s with [] => false | _ => true end.

End PyStr.

Import PyStr.

(* ------------------------------------------------------------------ *)
(** * Python numbers *)

Module PyNum.

Definition float := spec_float.

Definition prec : Z := 53.
Definition emax : Z := 1024.

Definition fzero : float := S754_zero false.

(** [a + b] on floats: round to nearest, ties to even. *)
Definition fadd (a b : float) : float := SFadd prec emax a b.

(** [float(z)] for an [int]: the nearest double, ties to even.  Beyond the
    range of a double Python raises [OverflowError]; the integers of a
    workbook are read from doubles and stay inside that range, where this
    conversion is exact. *)
Definition float_of_int (z : Z) : float := binary_normalize prec emax z 0 false.

(** The double nearest to [n / d], signed by [neg]. *)
Definition float_of_ratio (neg : bool) (n : Z) (d : positive) : float :=
  match n with
  | Z0 => S754_zero neg
  | Zpos m => SFdiv prec emax (S754_finite neg m 0) (S754_finite false d 0)
  | Zneg _ => S754_nan
  end.

Definition digit_val (c : ascii) : Z := Z.of_nat (code c) - 48.

Fixpoint digits_val (acc : Z) (s : str) : Z :=
  match s with
  | [] => acc
  | c :: s' => digits_val (10 * acc + digit_val c) s'
  end.

Definition pow10 (k : nat) : positive := Nat.iter k (Pos.mul 10) 1%positive.

(** The longest prefix of digits, and what follows it. *)
Fixpoint span_digits (s : str) : str * str :=
  match s with
  | [] => ([], [])
  | c :: s' =>
      if isdigit c
      then let (d, r) := span_digits s' in (c :: d, r)
      else ([], s)
  end.

(** [float(s)] for a string [s] over the alphabet that survives the
    cleaning of [_extract_numeric_value]: digits, ['.'] and ['-'].  Python
    accepts an optional sign followed by digits with at most one point and at
    least one digit; anything else raises [ValueError] ([None] here).  A
    magnitude beyond the doubles reads as an infinity. *)
Definition float_of_str (s : str) : option float :=
  let (neg, body) :=
    match s with
    | "-"%char :: r => (true, r)
    | _ => (false, s)
    end in
  let (ip, rest) := span_digits body in
  let frac :=
    match rest with
    | [] => Some []
    | "."%char :: r =>
        let (fp, rest') := span_digits r in
        match rest' with [] => Some fp | _ => None end
    | _ => None
    end in
  match frac with
  | None => None
  | Some fp =>
      match ip ++ fp with
      | [] => None
      | ds => Some (float_of_ratio neg (digits_val 0 ds) (pow10 (List.length fp)))
      end
  end.

(** A Python number as a function returns it: the type is part of the
    value ([0] and [0.0] are different objects). *)
Inductive num :=
| PyInt (z : Z)
| PyFloat (f : float).

Definition to_float (a : num) : float :=
  match a with
  | PyInt z => float_of_int z
  | PyFloat f => f
  end.

(** [a + f] with [f] a float: a float, whatever [a] is. *)
Definition add_float (a : num) (f : float) : num := PyFloat (fadd (to_float a) f).

(** [sum(values)] of a list of floats: starts from the integer [0]. *)
Definition sum (vs : list float) : num := fold_left add_float vs (PyInt 0).

End PyNum.

Import PyNum.

(* ------------------------------------------------------------------ *)
(** * Cells, frames, dictionaries and outcomes *)

(** A cell value as the processor meets it. *)
Inductive Cell :=
| CNone
| CInt (z : Z)
| CFloat (f : float)
| CStr (s : str).

Definition Row := list Cell.
Definition DataFrame := list Row.

(** [pd.isna(value)] and [pd.notna(value)] *)
Definition isna (c : Cell) : bool :=
  match c with
  | CNone => true
  | CFloat S754_nan => true
  | _ => false
  end.

Definition notna (c : Cell) : bool := negb (isna c).

(** [row.dropna()] *)
Definition dropna (row : Row) : Row := filter notna row.

(** [row.isna().all()] *)
Definition all_na (row : Row) : bool := forallb isna row.

(** [df.dropna(how='all')] *)
Definition dropna_all (df : DataFrame) : DataFrame :=
  filter (fun row => negb (all_na row)) df.

(** Number of columns: the length of the widest row. *)
Definition width (df : DataFrame) : nat := list_max (map (@List.length Cell) df).

(** [df.empty]: no row or no column. *)
Definition df_empty (df : DataFrame) : bool :=
  match df with
  | [] => true
  | _ => (width df =? 0)%nat
  end.

(** [row.iloc[0]] once the frame has a column, and [row.iloc[1:]]. *)
Definition first_cell (row : Row) : Cell := hd CNone row.
Definition rest_cells (row : Row) : Row := tl row.

(** The representation of a column. *)
Inductive dtype := Int64 | Float64 | Object.

Definition is_int (c : Cell) : bool :=
  match c with CInt _ => true | _ => false end.

Definition is_str (c : Cell) : bool :=
  match c with CStr _ => true | _ => false end.

Definition is_number (c : Cell) : bool :=
  match c with CInt _ | CFloat _ => true | _ => false end.

(** The dtype that pandas infers for the cells of a column: objects as soon
    as there is a string, int64 for integers only, float64 for numbers with
    floats or missing values among them, objects for [None] only. *)
Definition column_dtype (cells : list Cell) : dtype :=
  if existsb is_str cells then Object
  else if forallb is_int cells then Int64
  else if existsb is_number cells then Float64
  else Object.

(** A row of [w] cells: missing cells at the end are [None]. *)
Definition pad (w : nat) (row : Row) : Row :=
  row ++ repeat CNone (w - List.length row).

(** The cells of column [j], top to bottom. *)
Definition column (j : nat) (df : DataFrame) : list Cell :=
  map (fun row => nth j row CNone) df.

(** [df.dtypes] *)
Definition dtypes (df : DataFrame) : list dtype :=
  map (fun j => column_dtype (column j df)) (seq 0 (width df)).

(** A cell of a float64 column or row: an integer is converted, a missing
    value is NaN. *)
Definition to_float64 (c : Cell) : Cell :=
  match c with
  | CNone => CFloat S754_nan
  | CInt z => CFloat (float_of_int z)
  | _ => c
  end.

Definition retype (k : dtype) (c : Cell) : Cell :=
  match k with
  | Float64 => to_float64 c
  | _ => c
  end.

(** [pd.DataFrame(rows)] for a list of lists: the rows are padded to the
    widest one and every column is stored in its inferred dtype. *)
Definition pd_DataFrame (rows : list Row) : DataFrame :=
  map (fun row =>
         map (fun kc => retype (fst kc) (snd kc))
             (combine (dtypes rows) (pad (width rows) row)))
      rows.

Definition is_object (k : dtype) : bool :=
  match k with Object => true | _ => false end.

Definition is_int64 (k : dtype) : bool :=
  match k with Int64 => true | _ => false end.

(** The common dtype of the columns, in which [iterrows] yields a row. *)
Definition row_dtype (kinds : list dtype) : dtype :=
  if existsb is_object kinds then Object
  else if forallb is_int64 kinds then Int64
  else Float64.

(** The rows that [df.iterrows()] yields, in order. *)
Definition iterrows (df : DataFrame) : list Row :=
  map (fun row => map (retype (row_dtype (dtypes df))) (pad (width df) row)) df.

Module Dict.

Section WithValue.
Variable V : Type.

Definition t := list (str * V).

Fixpoint get (k : str) (d : t) : option V :=
  match d with
  | [] => None
  | (k', v) :: d' => if PyStr.eqb k k' then Some v else get k d'
  end.

(** [k in d] *)
Definition mem (k : str) (d : t) : bool :=
  match get k d with Some _ => true | None => false end.

(** [d[k] = v]: replaces the value of a key in place, appends a new key. *)
Fixpoint set (k : str) (v : V) (d : t) : t :=
  match d with
  | [] => [(k, v)]
  | (k', v') :: d' =>
      if PyStr.eqb k k' then (k', v) :: d' else (k', v') :: set k v d'
  end.

(** [d.update(other)] *)
Definition update (d other : t) : t :=
  fold_left (fun acc kv => set (fst kv) (snd kv) acc) other d.

(** [list(d.keys())] *)
Definition keys (d : t) : list str := map fst d.
End WithValue.

End Dict.

(** Exceptions raised by the processor: [ValueError] with its message, the
    [IndexError] of a positional access to a frame without columns, and the
    plain [Exception] that [load_excel_file] raises. *)
Inductive exn :=
| ValueError (msg : str)
| IndexError
| Exception (msg : str).

Inductive result (A : Type) :=
| Ok (a : A)
| Raise (e : exn).

Arguments Ok {A} a.
Arguments Raise {A} e.

Definition bind {A B} (r : result A) (k : A -> result B) : result B :=
  match r with
  | Ok a => k a
  | Raise e => Raise e
  end.

(** The answer of a handler: the JSON body, an [HTTPException], or the
    framework's plain status 500 for an exception raised while the returned
    body is rendered. *)
Inductive response (A : Type) :=
| Http200 (body : A)
| HTTPException (status_code : Z) (detail : str)
| InternalServerError.

Arguments Http200 {A} body.
Arguments HTTPException {A} status_code detail.
Arguments InternalServerError {A}.

(** A number that [json.dumps(..., allow_nan=False)] renders: not an
    infinity and not NaN. *)
Definition json_compliant (n : num) : bool :=
  match n with
  | PyInt _ => true
  | PyFloat (S754_zero _) | PyFloat (S754_finite _ _ _) => true
  | PyFloat _ => false
  end.

(* ------------------------------------------------------------------ *)
(** * The processor *)

(** [header_keywords] of [_is_potential_table_header] *)
Definition header_keywords : list str :=
  map lit ["investment"; "revenue"; "expense"; "projection"; "cash flow";
           "initial"; "operating"; "capital"; "budget"; "financial"]%string.

(** [ExcelProcessor._is_potential_table_header] *)
Definition _is_potential_table_header (text : str) : bool :=
  if negb (truthy text) || PyStr.eqb (strip text) [] then false
  else
    let text_lower := lower text in
    if existsb (fun keyword => contains keyword text_lower) header_keywords
    then true
    else if (List.length (split text) <=? 5)%nat && (5 <? List.length text)%nat
         then true
         else false.

(** A match of the pattern [[^\d.-]]. *)
Definition non_numeric (c : ascii) : bool :=
  negb (isdigit c || Ascii.eqb c "."%char || Ascii.eqb c "-"%char).

(** [re.sub(r'[^\d.-]', '', value)] *)
Fixpoint re_sub_non_numeric (value : str) : str :=
  match value with
  | [] => []
  | c :: value' =>
      if non_numeric c then re_sub_non_numeric value'
      else c :: re_sub_non_numeric value'
  end.

(** [ExcelProcessor._extract_numeric_value]; [None] is Python's [None]. *)
Definition _extract_numeric_value (value : Cell) : option float :=
  match value with
  | CInt z => Some (float_of_int z)
  | CFloat f => Some f
  | CStr s =>
      let cleaned := re_sub_non_numeric s in
      if truthy cleaned then float_of_str cleaned else None
  | CNone => None
  end.

(** The loop of [calculate_row_sum] over the cells after the label. *)
Definition sum_cells (cells : Row) : num :=
  fold_left
    (fun numerical_sum value =>
       if notna value
       then match _extract_numeric_value value with
            | Some numeric_value => add_float numerical_sum numeric_value
            | None => numerical_sum
            end
       else numerical_sum)
    cells (PyInt 0).

(** A rendering of floats that renders nothing, for running the processor
    on concrete frames in which no float is ever rendered. *)
Definition no_float_str : float -> str := fun _ => [].

Section Engine.

(** [str(f)] for a float [f], Python's shortest representation that reads
    back as [f].  It is a built-in of the language and stays a parameter. *)
Variable float_str : float -> str.

(** [str(cell)] *)
Definition cell_str (c : Cell) : str :=
  match c with
  | CNone => lit "None"
  | CInt z => of_int z
  | CFloat f => float_str f
  | CStr s => s
  end.

(** [' '.join([str(cell) for cell in row.dropna()])] *)
Definition row_text (row : Row) : str :=
  join (lit " ") (map cell_str (dropna row)).

(** The local variables of [_extract_tables_from_sheet] during its loop. *)
Record scan_state := {
  tables_so_far : Dict.t DataFrame;
  current_table_name : option str;
  current_table_data : list Row
}.

Definition scan_init : scan_state :=
  {| tables_so_far := []; current_table_name := None; current_table_data := [] |}.

Definition name_truthy (n : option str) : bool :=
  match n with
  | None => false
  | Some s => truthy s
  end.

Definition rows_truthy (rows : list Row) : bool :=
  match rows with [] => false | _ => true end.

(** [if current_table_name and current_table_data:
       tables[current_table_name] = pd.DataFrame(current_table_data)] *)
Definition save_table (st : scan_state) : Dict.t DataFrame :=
  match current_table_name st with
  | Some name =>
      if truthy name && rows_truthy (current_table_data st)
      then Dict.set name (pd_DataFrame (current_table_data st)) (tables_so_far st)
      else tables_so_far st
  | None => tables_so_far st
  end.

(** One iteration of [for idx, row in df.iterrows()], on the row that
    [iterrows] yields. *)
Definition scan_row (st : scan_state) (row : Row) : scan_state :=
  let row_str := row_text row in
  if _is_potential_table_header row_str
  then {| tables_so_far := save_table st;
          current_table_name := Some (strip row_str);
          current_table_data := [] |}
  else if name_truthy (current_table_name st) && negb (all_na row)
       then {| tables_so_far := tables_so_far st;
               current_table_name := current_table_name st;
               current_table_data := current_table_data st ++ [row] |}
       else st.

(** The loop over the rows that [iterrows] yields, and the save of the last
    table. *)
Definition scan_tables (rows : list Row) : Dict.t DataFrame :=
  save_table (fold_left scan_row rows scan_init).

(** [ExcelProcessor._extract_tables_from_sheet] *)
Definition _extract_tables_from_sheet (df : DataFrame) (sheet_name : str)
  : Dict.t DataFrame :=
  let tables := scan_tables (iterrows df) in
  match tables with
  | [] =>
      let non_empty_rows := dropna_all df in
      if df_empty non_empty_rows then tables
      else Dict.set (sheet_name ++ lit "_data") non_empty_rows tables
  | _ => tables
  end.

(** [ExcelProcessor._identify_tables] *)
Definition _identify_tables (sheets_data tables : Dict.t DataFrame)
  : Dict.t DataFrame :=
  fold_left
    (fun tables sheet =>
       Dict.update tables (_extract_tables_from_sheet (snd sheet) (fst sheet)))
    sheets_data tables.

(** [ExcelProcessor.get_table_names] *)
Definition get_table_names (tables : Dict.t DataFrame) : list str :=
  Dict.keys tables.

Definition table_not_found (table_name : str) : exn :=
  ValueError (lit "Table '" ++ table_name ++ lit "' not found").

Definition row_not_found (row_name table_name : str) : exn :=
  ValueError (lit "Row '" ++ row_name ++ lit "' not found in table '"
              ++ table_name ++ lit "'").

(** [ExcelProcessor.get_table_row_names] *)
Definition get_table_row_names (tables : Dict.t DataFrame) (table_name : str)
  : result (list str) :=
  match Dict.get table_name tables with
  | None => Raise (table_not_found table_name)
  | Some table_df =>
      if df_empty table_df then Ok []
      else
        let first_column := map first_cell table_df in
        Ok (fold_left
              (fun row_names value =>
                 if notna value && truthy (strip (cell_str value))
                 then row_names ++ [strip (cell_str value)]
                 else row_names)
              first_column [])
  end.

(** [pd.notna(row.iloc[0]) and str(row.iloc[0]).strip() == row_name] *)
Definition row_matches (row_name : str) (row : Row) : bool :=
  notna (first_cell row) && PyStr.eqb (strip (cell_str (first_cell row))) row_name.

(** The search loop of [calculate_row_sum], left at the first match. *)
Fixpoint find_row (row_name : str) (rows : list Row) : option Row :=
  match rows with
  | [] => None
  | row :: rows' =>
      if row_matches row_name row then Some row else find_row row_name rows'
  end.

(** [ExcelProcessor.calculate_row_sum].  The rows are those that
    [table_df.iterrows()] yields.  In a frame that has rows and no column the
    first [row.iloc[0]] raises [IndexError]. *)
Definition calculate_row_sum (tables : Dict.t DataFrame)
    (table_name row_name : str) : result num :=
  match Dict.get table_name tables with
  | None => Raise (table_not_found table_name)
  | Some table_df =>
      if rows_truthy table_df && (width table_df =? 0)%nat then Raise IndexError
      else
        match find_row row_name (iterrows table_df) with
        | None => Raise (row_not_found row_name table_name)
        | Some target_row => Ok (sum_cells (rest_cells target_row))
        end
  end.

(* ------------------------------------------------------------------ *)
(** * Loading and the HTTP handlers *)

(** The attributes of an [ExcelProcessor] object. *)
Record ExcelProcessor := {
  file_path : str;
  sheets_data : Dict.t DataFrame;
  tables : Dict.t DataFrame
}.

(** [ExcelProcessor(file_path)] *)
Definition new_processor (path : str) : ExcelProcessor :=
  {| file_path := path; sheets_data := []; tables := [] |}.

(** What the file system and the workbook decoder answer for a path: no
    such file, a file the decoder rejects with a message, or the sheets of
    the workbook in order. *)
Inductive source_file :=
| Missing
| Unreadable (msg : str)
| Workbook (sheets : list (str * DataFrame)).

(** [ExcelProcessor.load_excel_file]: the object after the call, and whether
    the call returned or raised. *)
Definition load_excel_file (file : source_file) (self : ExcelProcessor)
  : ExcelProcessor * result unit :=
  let failed e := Exception (lit "Error loading Excel file: " ++ e) in
  match file with
  | Missing =>
      (self, Raise (failed (lit "Excel file not found at " ++ file_path self)))
  | Unreadable msg => (self, Raise (failed msg))
  | Workbook sheets =>
      let data :=
        fold_left (fun acc sheet => Dict.set (fst sheet) (snd sheet) acc)
                  sheets (sheets_data self) in
      ({| file_path := file_path self;
          sheets_data := data;
          tables := _identify_tables data (tables self) |}, Ok tt)
  end.

Definition EXCEL_FILE_PATH : str := lit "capbudg.xls".

(** [initialize_processor]: the new value of the global [processor] and the
    boolean returned.  The global is assigned before the file is loaded. *)
Definition initialize_processor (file : source_file)
  : option ExcelProcessor * bool :=
  let processor := new_processor EXCEL_FILE_PATH in
  match load_excel_file file processor with
  | (processor', Ok _) => (Some processor', true)
  | (processor', Raise _) => (Some processor', false)
  end.

(** [str(e)] *)
Definition exn_str (e : exn) : str :=
  match e with
  | ValueError msg => msg
  | Exception msg => msg
  | IndexError => lit "single positional indexer is out-of-bounds"
  end.

Definition not_initialized {A} : response A :=
  HTTPException 500 (lit "Excel processor not initialized").

(** [GET /list_tables] *)
Definition list_tables (processor : option ExcelProcessor)
  : response (list str) :=
  match processor with
  | None => not_initialized
  | Some p => Http200 (get_table_names (tables p))
  end.

(** [GET /get_table_details] *)
Definition get_table_details (processor : option ExcelProcessor)
    (table_name : str) : response (str * list str) :=
  match processor with
  | None => not_initialized
  | Some p =>
      match get_table_row_names (tables p) table_name with
      | Ok row_names => Http200 (table_name, row_names)
      | Raise (ValueError msg) => HTTPException 404 msg
      | Raise e =>
          HTTPException 500 (lit "Error retrieving table details: " ++ exn_str e)
      end
  end.

(** [GET /row_sum].  The returned body is rendered as JSON with
    [allow_nan=False]: a sum that is an infinity or NaN makes the rendering
    fail after the handler has returned. *)
Definition row_sum (processor : option ExcelProcessor)
    (table_name row_name : str) : response (str * str * num) :=
  match processor with
  | None => not_initialized
  | Some p =>
      match calculate_row_sum (tables p) table_name row_name with
      | Ok sum_value =>
          if json_compliant sum_value
          then Http200 (table_name, row_name, sum_value)
          else InternalServerError
      | Raise (ValueError msg) => HTTPException 404 msg
      | Raise e =>
          HTTPException 500 (lit "Error calculating row sum: " ++ exn_str e)
      end
  end.

(** [GET /health]: the [processor_initialized] field. *)
Definition health_check (processor : option ExcelProcessor) : bool :=
  match processor with
  | None => false
  | Some _ => true
  end.

(* ------------------------------------------------------------------ *)
(** * The specification's reading of the segmenter and the resolver *)

(** A header-candidate row. *)
Definition is_header (row : Row) : bool :=
  _is_potential_table_header (row_text row).

(** The rows that follow a header, up to the next header or the end. *)
Fixpoint body_of (rows : list Row) : list Row :=
  match rows with
  | [] => []
  | r :: rows' => if is_header r then [] else r :: body_of rows'
  end.

(** The header rows of a grid in order, each with the rows that follow it. *)
Fixpoint blocks (df : DataFrame) : list (Row * list Row) :=
  match df with
  | [] => []
  | r :: rows => if is_header r then (r, body_of rows) :: blocks rows
                 else blocks rows
  end.

(** A block enters the registry under the trimmed text of its header when a
    row that is not entirely absent follows the header. *)
Definition commit_block (tables : Dict.t DataFrame) (b : Row * list Row)
  : Dict.t DataFrame :=
  match dropna_all (snd b) with
  | [] => tables
  | data => Dict.set (strip (row_text (fst b))) (pd_DataFrame data) tables
  end.

Definition tables_of_blocks (df : DataFrame) : Dict.t DataFrame :=
  fold_left commit_block (blocks df) [].

(** The first cell of a row is present and its trimmed string form is
    [label]. *)
Definition has_label (label : str) (row : Row) : Prop :=
  isna (first_cell row) = false /\ strip (cell_str (first_cell row)) = label.

(** The trimmed string forms of the first cells of the rows, leaving out the
    absent and the blank ones. *)
Definition labels (df : DataFrame) : list str :=
  map (fun c => strip (cell_str c))
      (filter (fun c => notna c && truthy (strip (cell_str c)))
              (map first_cell df)).

(** The values of the cells that are present and coerce to a number. *)
Definition coerced (cells : Row) : list float :=
  flat_map
    (fun c => if isna c then []
              else match _extract_numeric_value c with
                   | Some v => [v]
                   | None => []
                   end)
    cells.


(** The text that is neither a digit, nor a point, nor a minus sign, removed. *)
Definition numeric_chars (s : str) : str :=
  filter (fun c => isdigit c || Ascii.eqb c "."%char || Ascii.eqb c "-"%char) s.

(** Blank text, keyword text and short text of the header predicate. *)
Definition blank (text : str) : bool := forallb isspace text.

Definition has_keyword (text : str) : bool :=
  existsb (fun keyword => contains keyword (lower text)) header_keywords.

Definition short_text (text : str) : bool :=
  (List.length (split text) <=? 5)%nat && (5 <? List.length text)%nat.

(** The rows saved last under [name] among the blocks of a grid: the later
    block wins. *)
Fixpoint last_saved (name : str) (bs : list (Row * list Row))
  : option DataFrame :=
  match bs with
  | [] => None
  | b :: bs' =>
      match last_saved name bs' with
      | Some t => Some t
      | None =>
          match dropna_all (snd b) with
          | [] => None
          | data =>
              if PyStr.eqb name (strip (row_text (fst b)))
              then Some (pd_DataFrame data)
              else None
          end
      end
  end.

(** Number of header-candidate rows of a grid. *)
Definition header_count (df : DataFrame) : nat :=
  List.length (filter is_header df).

(** The sign bit of a float; NaN carries none. *)
Definition negative (f : float) : bool :=
  match f with
  | S754_zero s | S754_infinity s | S754_finite s _ _ => s
  | S754_nan => false
  end.

(** [float(s)] once the sign is read: digits, at most one point, digits. *)
Definition unsigned_float (neg : bool) (body : str) : option float :=
  let (ip, rest) := span_digits body in
  let frac :=
    match rest with
    | [] => Some []
    | "."%char :: r =>
        let (fp, rest') := span_digits r in
        match rest' with [] => Some fp | _ => None end
    | _ => None
    end in
  match frac with
  | None => None
  | Some fp =>
      match ip ++ fp with
      | [] => None
      | ds => Some (float_of_ratio neg (digits_val 0 ds) (pow10 (List.length fp)))
      end
  end.

(** A handler answered with status 200. *)
Definition is_200 {A} (r : response A) : bool :=
  match r with
  | Http200 _ => true
  | _ => false
  end.

(** The status code of an answer. *)
Definition status_of {A} (r : response A) : Z :=
  match r with
  | Http200 _ => 200
  | HTTPException status_code _ => status_code
  | InternalServerError => 500
  end.

(* ------------------------------------------------------------------ *)
(** * Facts about strings *)

Unset Implicit Arguments.

Lemma eqb_true_iff (a b : str) : PyStr.eqb a b = true <-> a = b.
Proof.
  unfold PyStr.eqb. destruct (list_eq_dec ascii_dec a b); split; congruence.
Qed.

Lemma eqb_false_iff (a b : str) : PyStr.eqb a b = false <-> a <> b.
Proof.
  unfold PyStr.eqb. destruct (list_eq_dec ascii_dec a b); split; congruence.
Qed.

Lemma eqb_refl (a : str) : PyStr.eqb a a = true.
Proof. now apply eqb_true_iff. Qed.

Lemma truthy_true_iff (s : str) : truthy s = true <-> s <> [].
Proof. destruct s; simpl; split; congruence. Qed.

Lemma dropWhile_nil_iff p s : dropWhile p s = [] <-> forallb p s = true.
Proof.
  induction s as [|c s IH]; simpl.
  - tauto.
  - destruct (p c); simpl; [exact IH | split; discriminate].
Qed.

Lemma dropWhile_forallb p s :
  forallb p (dropWhile p s) = true -> dropWhile p s = [].
Proof.
  induction s as [|c s IH]; simpl; auto.
  destruct (p c) eqn:E; auto.
  simpl. rewrite E. discriminate.
Qed.

Lemma forallb_rev (p : ascii -> bool) s : forallb p (rev s) = forallb p s.
Proof.
  induction s as [|c s IH]; simpl; auto.
  rewrite forallb_app, IH. simpl. rewrite andb_true_r. apply andb_comm.
Qed.

(** Text strips to the empty string exactly when it is all white space. *)
Lemma strip_nil_iff s : strip s = [] <-> blank s = true.
Proof.
  unfold strip, rstrip, lstrip, blank. split; intro H.
  - apply dropWhile_nil_iff, dropWhile_forallb.
    rewrite <- forallb_rev.
    apply dropWhile_nil_iff.
    rewrite <- (rev_involutive (dropWhile _ (rev _))), H. reflexivity.
  - apply dropWhile_nil_iff in H. rewrite H. reflexivity.
Qed.

Lemma startswith_In s k c : startswith s k = true -> In c k -> In c s.
Proof.
  revert s; induction k as [|a k IH]; intros s H Hc; [destruct Hc|].
  destruct s as [|b s]; simpl in H; [discriminate|].
  apply andb_true_iff in H as [Hab Hk].
  apply Ascii.eqb_eq in Hab; subst b.
  destruct Hc as [->|Hc]; [now left | right; eauto].
Qed.

Lemma contains_In k s c : contains k s = true -> In c k -> In c s.
Proof.
  induction s as [|b s IH]; intros H Hc.
  - simpl in H. rewrite orb_false_r in H. destruct k; [destruct Hc | discriminate].
  - cbn [contains] in H. apply orb_true_iff in H as [H|H].
    + eapply startswith_In; eauto.
    + right; auto.
Qed.

Lemma isspace_lower_char c : isspace (lower_char c) = isspace c.
Proof.
  destruct c as [[] [] [] [] [] [] [] []]; reflexivity.
Qed.

Lemma blank_lower s : blank (lower s) = blank s.
Proof.
  unfold blank, lower. induction s as [|c s IH]; simpl; auto.
  now rewrite isspace_lower_char, IH.
Qed.

(** Text that holds a character which is not white space is not blank. *)
Lemma blank_In s c : blank s = true -> In c s -> isspace c = true.
Proof.
  unfold blank. intros H Hc. rewrite forallb_forall in H. auto.
Qed.

Lemma keyword_visible :
  forallb (fun k => match k with c :: _ => negb (isspace c) | [] => false end)
          header_keywords = true.
Proof. reflexivity. Qed.

Lemma has_keyword_not_blank text : has_keyword text = true -> blank text = false.
Proof.
  unfold has_keyword. intro H.
  apply existsb_exists in H as (k & Hk & Hc).
  pose proof keyword_visible as V. rewrite forallb_forall in V.
  specialize (V k Hk). destruct k as [|c k]; [discriminate|].
  rewrite <- blank_lower.
  destruct (blank (lower text)) eqn:B; auto.
  rewrite (blank_In _ c B (contains_In _ _ c Hc (or_introl eq_refl))) in V.
  discriminate.
Qed.

Lemma blank_nil_or text :
  negb (truthy text) || PyStr.eqb (strip text) [] = blank text.
Proof.
  destruct (blank text) eqn:B.
  - apply strip_nil_iff in B. rewrite B, eqb_refl. apply orb_true_r.
  - apply orb_false_iff. split.
    + destruct text; [discriminate B | reflexivity].
    + apply eqb_false_iff. intro H. apply strip_nil_iff in H. congruence.
Qed.

(** The header predicate as one boolean formula. *)
Lemma header_formula text :
  _is_potential_table_header text =
  negb (blank text) && (has_keyword text || short_text text).
Proof.
  unfold _is_potential_table_header. rewrite blank_nil_or.
  fold (has_keyword text). fold (short_text text).
  destruct (blank text), (has_keyword text), (short_text text); reflexivity.
Qed.

Lemma header_not_blank text :
  _is_potential_table_header text = true -> strip text <> [].
Proof.
  rewrite header_formula. intros H Hs. apply strip_nil_iff in Hs.
  rewrite Hs in H. discriminate.
Qed.

(** C2. The header predicate is false on blank or white-space-only text,
    true on text whose lower-cased form contains one of the ten keywords,
    and otherwise true exactly when the text has at most five
    white-space-separated tokens and more than five characters.
    ["Cash Flow Summary"] is a header candidate, ["Q1 Q2 Q3 Q4 Q5 Q6"] and the
    empty text are not. *)
Theorem is_header_candidate_cases :
  header_keywords =
    map lit ["investment"; "revenue"; "expense"; "projection"; "cash flow";
             "initial"; "operating"; "capital"; "budget"; "financial"]%string
  /\ (forall text,
        (text = [] \/ forallb isspace text = true) ->
        _is_potential_table_header text = false)
  /\ (forall text keyword,
        In keyword header_keywords ->
        contains keyword (lower text) = true ->
        _is_potential_table_header text = true)
  /\ (forall text,
        forallb isspace text = false ->
        (forall keyword, In keyword header_keywords ->
                         contains keyword (lower text) = false) ->
        _is_potential_table_header text =
        (List.length (split text) <=? 5)%nat && (5 <? List.length text)%nat)
  /\ _is_potential_table_header (lit "Cash Flow Summary") = true
  /\ contains (lit "cash flow") (lower (lit "Cash Flow Summary")) = true
  /\ _is_potential_table_header (lit "Q1 Q2 Q3 Q4 Q5 Q6") = false
  /\ List.length (split (lit "Q1 Q2 Q3 Q4 Q5 Q6")) = 6%nat
  /\ has_keyword (lit "Q1 Q2 Q3 Q4 Q5 Q6") = false
  /\ _is_potential_table_header (lit "") = false.
Proof.
  split; [reflexivity|].
  split.
  { intros text [->|H]; [reflexivity|].
    rewrite header_formula. unfold blank. now rewrite H. }
  split.
  { intros text k Hk Hc. rewrite header_formula.
    assert (K : has_keyword text = true).
    { unfold has_keyword. apply existsb_exists. eauto. }
    rewrite K, (has_keyword_not_blank _ K). reflexivity. }
  split.
  { intros text B N. rewrite header_formula. unfold blank. rewrite B.
    assert (K : has_keyword text = false).
    { unfold has_keyword. destruct (existsb _ _) eqn:E; auto.
      apply existsb_exists in E as (k & Hk & Hc).
      rewrite (N k Hk) in Hc. discriminate. }
    rewrite K. reflexivity. }
  repeat split; reflexivity.
Qed.

(* ------------------------------------------------------------------ *)
(** * Facts about numbers *)

Lemma digits2_size p : digits2_pos p = Pos.size p.
Proof. induction p; simpl; congruence. Qed.

Lemma digits2_bound p n :
  (0 <= n)%Z -> (Zpos p < 2 ^ n)%Z -> (Zpos (digits2_pos p) <= n)%Z.
Proof.
  intros Hn H. rewrite digits2_size.
  assert (L : (2 ^ Zpos (Pos.size p) <= 2 * Zpos p)%Z).
  { rewrite <- Pos2Z.inj_pow. change (2 * Zpos p)%Z with (Zpos p~0).
    apply Pos2Z.pos_le_pos, Pos.size_le. }
  assert (U : (2 ^ Zpos (Pos.size p) < 2 ^ (n + 1))%Z).
  { rewrite Z.pow_add_r by lia. lia. }
  apply Z.pow_lt_mono_r_iff in U; lia.
Qed.

Lemma iter_xO_digits k : forall m,
  digits2_pos (Pos.iter xO m k) = (digits2_pos m + k)%positive.
Proof.
  induction k using Pos.peano_ind; intro m.
  - simpl. lia.
  - rewrite Pos.iter_succ. simpl. rewrite IHk. lia.
Qed.

Lemma iter_xO_value k : forall m,
  Zpos (Pos.iter xO m k) = (Zpos m * 2 ^ Zpos k)%Z.
Proof.
  induction k using Pos.peano_ind; intro m.
  - simpl. lia.
  - rewrite Pos.iter_succ. rewrite Pos2Z.inj_succ, Z.pow_succ_r by lia.
    change (Zpos (Pos.iter xO m k)~0) with (2 * Zpos (Pos.iter xO m k))%Z.
    rewrite IHk. lia.
Qed.

(** A mantissa of 53 bits with an exponent in range is not rounded. *)
Lemma round_aux_exact s m e :
  Zpos (digits2_pos m) = 53%Z -> (-1074 <= e <= 971)%Z ->
  binary_round_aux prec emax s (Zpos m) e loc_Exact = S754_finite s m e.
Proof.
  intros D E. unfold binary_round_aux, shr_fexp, fexp, emin, prec, emax.
  cbn [Zdigits2 shr_record_of_loc].
  rewrite D.
  replace (Z.max (53 + e - 53) (3 - 1024 - 53) - e)%Z with 0%Z by lia.
  cbn [shr shr_m loc_of_shr_record round_nearest_even Zdigits2 shr_record_of_loc].
  rewrite D.
  replace (Z.max (53 + e - 53) (3 - 1024 - 53) - e)%Z with 0%Z by lia.
  cbn [shr shr_m].
  replace (e <=? 1024 - 53)%Z with true by (symmetry; apply Z.leb_le; lia).
  reflexivity.
Qed.

Lemma round_exact s p :
  (Zpos p < 2 ^ 53)%Z ->
  exists m e, binary_round prec emax s p 0 = S754_finite s m e
              /\ (e <= 0)%Z /\ Zpos m = (Zpos p * 2 ^ (- e))%Z.
Proof.
  intro H. pose proof (digits2_bound p 53 ltac:(lia) H) as D.
  unfold binary_round, shl_align, fexp, emin, prec, emax.
  replace (Z.max (Z.pos (digits2_pos p) + 0 - 53) (3 - 1024 - 53) - 0)%Z
    with (Zpos (digits2_pos p) - 53)%Z by lia.
  replace (Z.max (Z.pos (digits2_pos p) + 0 - 53) (3 - 1024 - 53))%Z
    with (Zpos (digits2_pos p) - 53)%Z by lia.
  destruct (Zpos (digits2_pos p) - 53)%Z as [|k|k] eqn:K; try lia.
  - exists p, 0%Z. split; [|simpl; lia].
    apply round_aux_exact; lia.
  - exists (Pos.iter xO p k), (Zneg k). split; [|split; [lia|]].
    + apply round_aux_exact; [|lia].
      rewrite iter_xO_digits. lia.
    + rewrite iter_xO_value. reflexivity.
Qed.

(** Below 2^53 the float of an integer is that integer: mantissa times two
    to the exponent is its absolute value, and the sign is its sign. *)
Lemma float_of_int_exact z :
  (0 < Z.abs z < 2 ^ 53)%Z ->
  exists m e, float_of_int z = S754_finite (z <? 0)%Z m e
              /\ (e <= 0)%Z /\ Zpos m = (Z.abs z * 2 ^ (- e))%Z.
Proof.
  intro H. destruct z as [|p|p]; [simpl in H; lia| |];
    apply round_exact; simpl in H; lia.
Qed.

Lemma shiftl_pos p k : Z.shiftl (Zpos p) (Zpos k) = Zpos (Pos.iter xO p k).
Proof.
  rewrite Z.shiftl_mul_pow2 by lia. now rewrite iter_xO_value.
Qed.

Lemma div_eucl_1 a : Z.div_eucl a 1 = (a, 0%Z).
Proof.
  pose proof (Z.div_1_r a) as Q. pose proof (Z.mod_1_r a) as R.
  unfold Z.div, Z.modulo in Q, R.
  destruct (Z.div_eucl a 1) as [q r]. simpl in Q, R. now subst.
Qed.

(** A mantissa of 54 bits that ends in a zero loses that zero and is not
    rounded. *)
Lemma round_aux_one_shift s q e :
  Zpos (digits2_pos q) = 53%Z -> (-1074 <= e <= 970)%Z ->
  binary_round_aux prec emax s (Zpos q~0) e loc_Exact = S754_finite s q (e + 1).
Proof.
  intros D E. unfold binary_round_aux, shr_fexp, fexp, emin, prec, emax.
  cbn [Zdigits2 shr_record_of_loc digits2_pos].
  rewrite Pos2Z.inj_succ, D.
  replace (Z.max (Z.succ 53 + e - 53) (3 - 1024 - 53) - e)%Z with 1%Z by lia.
  cbn [shr iter_pos shr_1 orb shr_m loc_of_shr_record round_nearest_even
       Zdigits2 shr_record_of_loc].
  rewrite D.
  replace (Z.max (53 + (e + 1) - 53) (3 - 1024 - 53) - (e + 1))%Z with 0%Z by lia.
  cbn [shr shr_m].
  replace (e + 1 <=? 1024 - 53)%Z with true by (symmetry; apply Z.leb_le; lia).
  reflexivity.
Qed.

(** A quotient by one with a numerator below 2^53 is the float of the
    numerator. *)
Lemma ratio_one_exact p :
  (Zpos p < 2 ^ 53)%Z ->
  float_of_ratio false (Zpos p) 1 = float_of_int (Zpos p).
Proof.
  intro H. pose proof (digits2_bound p 53 ltac:(lia) H) as D.
  unfold float_of_int, binary_normalize, binary_round, shl_align.
  unfold float_of_ratio, SFdiv, SFdiv_core_binary.
  cbn [Zdigits2 digits2_pos xorb].
  unfold fexp, emin, prec, emax.
  replace (Z.min (Z.max (Z.pos (digits2_pos p) + 0 - (1 + 0) - 53) (3 - 1024 - 53)) (0 - 0))%Z
    with (Zpos (digits2_pos p) - 54)%Z by lia.
  replace (0 - 0 - (Z.pos (digits2_pos p) - 54))%Z
    with (54 - Zpos (digits2_pos p))%Z by lia.
  replace (Z.max (Z.pos (digits2_pos p) + 0 - 53) (3 - 1024 - 53) - 0)%Z
    with (Zpos (digits2_pos p) - 53)%Z by lia.
  replace (Z.max (Z.pos (digits2_pos p) + 0 - 53) (3 - 1024 - 53))%Z
    with (Zpos (digits2_pos p) - 53)%Z by lia.
  destruct (54 - Zpos (digits2_pos p))%Z as [|k|k] eqn:K; try lia.
  rewrite shiftl_pos, div_eucl_1.
  cbn [new_location Z.even new_location_odd Z.eqb].
  destruct (Pos.eq_dec k 1) as [->|Nk].
  - replace (Zpos (digits2_pos p) - 53)%Z with 0%Z by lia.
    cbn [Pos.iter].
    fold prec. fold emax.
    rewrite round_aux_one_shift by lia.
    rewrite round_aux_exact by lia.
    f_equal. lia.
  - assert (S : exists j, k = Pos.succ j).
    { exists (Pos.pred k). rewrite Pos.succ_pred; auto. }
    destruct S as [j ->]. rewrite Pos.iter_succ.
    replace (Zpos (digits2_pos p) - 53)%Z with (Zneg j) by lia.
    fold prec. fold emax.
    rewrite round_aux_one_shift by (try rewrite iter_xO_digits; lia).
    rewrite round_aux_exact by (try rewrite iter_xO_digits; lia).
    f_equal. lia.
Qed.

Lemma float_of_str_sign s :
  float_of_str s =
  match s with
  | [] => unsigned_float false []
  | c :: r => if Ascii.eqb c "-"%char then unsigned_float true r
              else unsigned_float false s
  end.
Proof.
  destruct s as [|c r]; [reflexivity|].
  destruct c as [[] [] [] [] [] [] [] []]; reflexivity.
Qed.

Lemma span_digits_spec s : forall d r,
  span_digits s = (d, r) -> s = d ++ r /\ forallb isdigit d = true.
Proof.
  induction s as [|c s IH]; simpl; intros d r H.
  - injection H as <- <-. auto.
  - destruct (isdigit c) eqn:C.
    + destruct (span_digits s) as [d' r'] eqn:E. injection H as <- <-.
      destruct (IH d' r' eq_refl) as [-> F]. simpl. now rewrite C, F.
    + injection H as <- <-. auto.
Qed.

Lemma span_digits_all ds :
  forallb isdigit ds = true -> span_digits ds = (ds, []).
Proof.
  induction ds as [|c ds IH]; simpl; [reflexivity|].
  intro H. apply andb_true_iff in H as [C D]. now rewrite C, IH.
Qed.

Lemma digits_val_nonneg ds : forall acc,
  (0 <= acc)%Z -> forallb isdigit ds = true -> (0 <= digits_val acc ds)%Z.
Proof.
  induction ds as [|c ds IH]; intros acc A H; [exact A|].
  cbn [digits_val]. cbn [forallb] in H.
  apply andb_true_iff in H as [C D]. apply IH; [|exact D].
  unfold digit_val. unfold isdigit in C. apply andb_true_iff in C as [C _].
  apply Nat.leb_le in C. lia.
Qed.

(** Text made of digits reads as the float of the integer it spells, as
    long as that integer is below 2^53. *)
Lemma float_of_str_digits ds :
  ds <> [] -> forallb isdigit ds = true ->
  (digits_val 0 ds < 2 ^ 53)%Z ->
  float_of_str ds = Some (float_of_int (digits_val 0 ds)).
Proof.
  intros N D B. rewrite float_of_str_sign.
  destruct ds as [|c r]; [congruence|].
  assert (C : Ascii.eqb c "-"%char = false).
  { apply Ascii.eqb_neq. intros ->. discriminate D. }
  rewrite C. unfold unsigned_float. rewrite (span_digits_all _ D).
  rewrite app_nil_r. cbn [List.length pow10 Nat.iter].
  f_equal. pose proof (digits_val_nonneg (c :: r) 0%Z ltac:(lia) D) as P.
  destruct (digits_val 0 (c :: r)) as [|p|p]; [reflexivity | | lia].
  now apply ratio_one_exact.
Qed.

Lemma re_sub_is_filter s : re_sub_non_numeric s = numeric_chars s.
Proof.
  unfold numeric_chars. induction s as [|c s IH]; simpl; auto.
  unfold non_numeric.
  destruct (isdigit c || Ascii.eqb c "."%char || Ascii.eqb c "-"%char);
    simpl; now rewrite IH.
Qed.



(* ------------------------------------------------------------------ *)
(** * Facts about dictionaries *)

Section DictFacts.
Variable V : Type.
Implicit Types (d : Dict.t V) (k : str) (v : V).

Lemma get_set_same k v d : Dict.get k (Dict.set k v d) = Some v.
Proof.
  induction d as [|[k' v'] d IH]; simpl.
  - now rewrite eqb_refl.
  - destruct (PyStr.eqb k k') eqn:E; simpl; rewrite E; auto.
Qed.

Lemma get_set_other k k' v d :
  k' <> k -> Dict.get k' (Dict.set k v d) = Dict.get k' d.
Proof.
  intro N. induction d as [|[k0 v0] d IH]; simpl.
  - apply eqb_false_iff in N. now rewrite N.
  - destruct (PyStr.eqb k k0) eqn:E; simpl.
    + apply eqb_true_iff in E. subst k0.
      apply eqb_false_iff in N. now rewrite N.
    + now rewrite IH.
Qed.

Lemma get_set_inv k k' v t d :
  Dict.get k' (Dict.set k v d) = Some t ->
  (k' = k /\ t = v) \/ Dict.get k' d = Some t.
Proof.
  intro H. destruct (list_eq_dec ascii_dec k' k) as [->|N].
  - rewrite get_set_same in H. left. split; congruence.
  - rewrite get_set_other in H by assumption. now right.
Qed.

Lemma keys_set k k' v d :
  In k' (Dict.keys (Dict.set k v d)) <-> k' = k \/ In k' (Dict.keys d).
Proof.
  unfold Dict.keys. induction d as [|[k0 v0] d IH]; simpl.
  - split; intros [H|H]; auto; contradiction.
  - destruct (PyStr.eqb k k0) eqn:E; simpl.
    + apply eqb_true_iff in E. subst k0. intuition congruence.
    + rewrite IH. intuition congruence.
Qed.

Lemma get_In_keys k d : In k (Dict.keys d) <-> exists v, Dict.get k d = Some v.
Proof.
  unfold Dict.keys. induction d as [|[k0 v0] d IH]; simpl.
  - split; [contradiction | intros [v H]; discriminate].
  - destruct (PyStr.eqb k k0) eqn:E.
    + apply eqb_true_iff in E. subst k0. split; eauto.
    + apply eqb_false_iff in E. rewrite <- IH. split; intros H; auto.
      destruct H; [congruence | assumption].
Qed.

Lemma get_In k v d : Dict.get k d = Some v -> In (k, v) d.
Proof.
  induction d as [|[k0 v0] d IH]; simpl; [discriminate|].
  destruct (PyStr.eqb k k0) eqn:E; intro H.
  - apply eqb_true_iff in E. left. congruence.
  - right; auto.
Qed.

Lemma set_not_nil k v d : Dict.set k v d <> [].
Proof. destruct d as [|[k0 v0] d]; simpl; [|destruct (PyStr.eqb k k0)]; discriminate. Qed.

Lemma keys_update k d other :
  In k (Dict.keys (Dict.update d other)) ->
  In k (Dict.keys d) \/ In k (Dict.keys other).
Proof.
  unfold Dict.update. revert d.
  induction other as [|[k0 v0] other IH]; simpl; intros d H; auto.
  apply IH in H as [H|H]; auto.
  apply keys_set in H as [->|H]; auto.
Qed.

(** A property of the values of a dictionary survives an assignment of a
    value that has it. *)
Lemma set_values (P : str -> V -> Prop) k v d :
  P k v ->
  (forall k' v', Dict.get k' d = Some v' -> P k' v') ->
  forall k' v', Dict.get k' (Dict.set k v d) = Some v' -> P k' v'.
Proof.
  intros Hv Hd k' v' H. apply get_set_inv in H as [[-> ->]|H]; auto.
Qed.
End DictFacts.

(* ------------------------------------------------------------------ *)
(** * Facts about frames *)

Lemma iter_pos_invariant (A : Type) (f : A -> A) (P : A -> Prop) :
  (forall x, P x -> P (f x)) -> forall n x, P x -> P (iter_pos f n x).
Proof.
  intros Hf n. induction n as [n IH|n IH|]; intros x Hx; simpl; auto.
Qed.

Lemma shr_1_nonneg mrs : (0 <= shr_m mrs)%Z -> (0 <= shr_m (shr_1 mrs))%Z.
Proof.
  destruct mrs as [m r s]. simpl. intro H.
  destruct m as [|[p|p|]|[p|p|]]; simpl; lia.
Qed.

Lemma shr_fexp_nonneg m e l :
  (0 <= m)%Z -> (0 <= shr_m (fst (shr_fexp prec emax m e l)))%Z.
Proof.
  intro H. unfold shr_fexp, shr.
  assert (R : (0 <= shr_m (shr_record_of_loc m l))%Z)
    by (destruct l as [|[]]; exact H).
  destruct (fexp prec emax (Zdigits2 m + e) - e)%Z as [|p|p]; simpl; auto.
  apply iter_pos_invariant; [exact shr_1_nonneg | exact R].
Qed.

Lemma round_aux_not_nan s m e l :
  (0 <= m)%Z -> binary_round_aux prec emax s m e l <> S754_nan.
Proof.
  intro H. unfold binary_round_aux.
  pose proof (shr_fexp_nonneg m e l H) as A.
  destruct (shr_fexp prec emax m e l) as [mrs e']. simpl in A.
  set (m' := round_nearest_even (shr_m mrs) (loc_of_shr_record mrs)).
  assert (B : (0 <= m')%Z).
  { unfold m', round_nearest_even.
    destruct (loc_of_shr_record mrs) as [|[]]; try lia.
    destruct (Z.even (shr_m mrs)); lia. }
  pose proof (shr_fexp_nonneg m' e' loc_Exact B) as C.
  destruct (shr_fexp prec emax m' e' loc_Exact) as [mrs' e'']. simpl in C.
  destruct (shr_m mrs'); [discriminate | | lia].
  destruct (Z.leb e'' (Z.sub emax prec)); discriminate.
Qed.

(** The float of an integer is a number. *)
Lemma float_of_int_not_nan z : float_of_int z <> S754_nan.
Proof.
  unfold float_of_int, binary_normalize.
  destruct z as [|p|p]; [discriminate| |];
    unfold binary_round;
    destruct (shl_align _ _ _) as [mz ez];
    apply round_aux_not_nan; lia.
Qed.

Lemma isna_retype k c : isna (retype k c) = isna c.
Proof.
  destruct k; try reflexivity. destruct c as [|z|f|s]; try reflexivity.
  simpl. pose proof (float_of_int_not_nan z) as H.
  destruct (float_of_int z); congruence.
Qed.

Lemma all_na_pad w row : all_na (pad w row) = all_na row.
Proof.
  unfold all_na, pad. rewrite forallb_app.
  replace (forallb isna (repeat CNone (w - List.length row))) with true;
    [apply andb_true_r|].
  induction (w - List.length row)%nat; simpl; auto.
Qed.

Lemma all_na_retype k row : all_na (map (retype k) row) = all_na row.
Proof.
  unfold all_na. induction row as [|c row IH]; simpl; auto.
  now rewrite isna_retype, IH.
Qed.

Lemma all_na_retype_columns kinds : forall row,
  List.length kinds = List.length row ->
  all_na (map (fun kc => retype (fst kc) (snd kc)) (combine kinds row))
  = all_na row.
Proof.
  unfold all_na.
  induction kinds as [|k kinds IH]; intros [|c row] L; simpl in *;
    try discriminate; auto.
  rewrite isna_retype, IH; auto.
Qed.

Lemma length_dtypes df : List.length (dtypes df) = width df.
Proof. unfold dtypes. now rewrite length_map, length_seq. Qed.

Lemma width_bound df row : In row df -> (List.length row <= width df)%nat.
Proof.
  intro H. unfold width.
  assert (F : Forall (fun k => (k <= list_max (map (@List.length Cell) df))%nat)
                     (map (@List.length Cell) df)).
  { apply list_max_le. apply Nat.le_refl. }
  rewrite Forall_forall in F. apply F. now apply in_map.
Qed.

Lemma length_pad df row :
  In row df -> List.length (pad (width df) row) = width df.
Proof.
  intro H. apply width_bound in H. unfold pad.
  rewrite length_app, repeat_length. lia.
Qed.

Lemma width_uniform (rows : list Row) w :
  rows <> [] -> (forall r, In r rows -> List.length r = w) -> width rows = w.
Proof.
  intros N H. unfold width. apply Nat.le_antisymm.
  - apply list_max_le. apply Forall_forall. intros k Hk.
    apply in_map_iff in Hk as (r & <- & Hr). rewrite (H r Hr). apply Nat.le_refl.
  - destruct rows as [|r rows]; [congruence|].
    rewrite <- (H r (or_introl eq_refl)).
    apply (width_bound (r :: rows) r). now left.
Qed.

(** The rows of [iterrows] are the rows of the frame, one for one, each as
    absent as the row it comes from and as wide as the frame. *)
Lemma iterrows_all_na df : map all_na (iterrows df) = map all_na df.
Proof.
  unfold iterrows. rewrite map_map. apply map_ext.
  intro row. now rewrite all_na_retype, all_na_pad.
Qed.

Lemma iterrows_length_row df row :
  In row (iterrows df) -> List.length row = width df.
Proof.
  unfold iterrows. intro H. apply in_map_iff in H as (r & <- & Hr).
  rewrite length_map. now apply length_pad.
Qed.

Lemma iterrows_nil df : iterrows df = [] <-> df = [].
Proof.
  split; intro H; [|subst; reflexivity].
  destruct df; [reflexivity | discriminate H].
Qed.

Lemma dropna_all_all_na (a b : list Row) :
  map all_na a = map all_na b ->
  (dropna_all a = [] <-> dropna_all b = []).
Proof.
  unfold dropna_all. revert b.
  induction a as [|x a IH]; intros [|y b] H; simpl in *; try discriminate;
    [tauto|].
  injection H as Hx Hab. rewrite Hx. specialize (IH b Hab).
  destruct (all_na y); simpl; [exact IH | split; discriminate].
Qed.

Lemma pd_DataFrame_all_na rows :
  map all_na (pd_DataFrame rows) = map all_na rows.
Proof.
  unfold pd_DataFrame. rewrite map_map. apply map_ext_in.
  intros row H. rewrite all_na_retype_columns.
  - apply all_na_pad.
  - now rewrite length_dtypes, length_pad.
Qed.

Lemma pd_DataFrame_length_row rows row :
  In row (pd_DataFrame rows) -> List.length row = width rows.
Proof.
  unfold pd_DataFrame. intro H. apply in_map_iff in H as (r & <- & Hr).
  rewrite length_map, length_combine, length_dtypes, length_pad by assumption.
  apply Nat.min_id.
Qed.

Lemma pd_DataFrame_nil rows : pd_DataFrame rows = [] <-> rows = [].
Proof.
  split; intro H; [|subst; reflexivity].
  destruct rows; [reflexivity | discriminate H].
Qed.

Lemma pd_DataFrame_width rows : width (pd_DataFrame rows) = width rows.
Proof.
  destruct rows as [|r rest] eqn:E; [reflexivity|]. rewrite <- E.
  apply width_uniform.
  - rewrite pd_DataFrame_nil. congruence.
  - exact (pd_DataFrame_length_row rows).
Qed.

Lemma iterrows_width df : width (iterrows df) = width df.
Proof.
  destruct df as [|r rest] eqn:E; [reflexivity|]. rewrite <- E.
  apply width_uniform.
  - rewrite iterrows_nil. congruence.
  - exact (iterrows_length_row df).
Qed.

Lemma map_all_na_In (a b : list Row) row :
  map all_na a = map all_na b -> In row a ->
  exists row', In row' b /\ all_na row' = all_na row.
Proof.
  revert b. induction a as [|x a IH]; intros [|y b] H Hin; simpl in *;
    try discriminate; [contradiction|].
  injection H as Hx Hab. destruct Hin as [->|Hin].
  - exists y. auto.
  - destruct (IH b Hab Hin) as (row' & Hr & E). eauto.
Qed.

(* ------------------------------------------------------------------ *)
(** * The segmenter *)

Lemma dropna_all_na row : all_na row = true -> dropna row = [].
Proof.
  unfold all_na, dropna, notna. induction row as [|c row IH]; simpl; auto.
  intro H. apply andb_true_iff in H as [Hc Hr]. rewrite Hc. simpl. auto.
Qed.

Lemma all_na_not_header row : all_na row = true -> is_header row = false.
Proof.
  intro H. unfold is_header, row_text. rewrite (dropna_all_na _ H). reflexivity.
Qed.

Lemma header_name_truthy row :
  is_header row = true -> truthy (strip (row_text row)) = true.
Proof.
  intro H. apply truthy_true_iff. now apply header_not_blank.
Qed.

Lemma scan_row_header st row :
  is_header row = true ->
  scan_row st row =
  {| tables_so_far := save_table st;
     current_table_name := Some (strip (row_text row));
     current_table_data := [] |}.
Proof. unfold scan_row, is_header. intros ->. reflexivity. Qed.

Lemma scan_row_data st row :
  is_header row = false ->
  scan_row st row =
  if name_truthy (current_table_name st) && negb (all_na row)
  then {| tables_so_far := tables_so_far st;
          current_table_name := current_table_name st;
          current_table_data := current_table_data st ++ [row] |}
  else st.
Proof. unfold scan_row, is_header. intros ->. reflexivity. Qed.

Lemma scan_row_blank st row : all_na row = true -> scan_row st row = st.
Proof.
  intro H. rewrite scan_row_data by now apply all_na_not_header.
  rewrite H. simpl. now rewrite andb_false_r.
Qed.

Lemma save_table_named T name d :
  name <> [] -> d <> [] ->
  save_table {| tables_so_far := T; current_table_name := Some name;
                current_table_data := d |} = Dict.set name (pd_DataFrame d) T.
Proof.
  intros Hn Hd. unfold save_table. simpl.
  apply truthy_true_iff in Hn. rewrite Hn.
  destruct d; [congruence | reflexivity].
Qed.

Lemma save_table_no_rows T n :
  save_table {| tables_so_far := T; current_table_name := n;
                current_table_data := [] |} = T.
Proof.
  unfold save_table. simpl. destruct n; auto. now rewrite andb_false_r.
Qed.

Lemma commit_block_save T h body :
  is_header h = true ->
  commit_block T (h, body) =
  save_table {| tables_so_far := T;
                current_table_name := Some (strip (row_text h));
                current_table_data := dropna_all body |}.
Proof.
  intro H. unfold commit_block, save_table. simpl.
  rewrite (header_name_truthy _ H). now destruct (dropna_all body).
Qed.

(** The pass from a state in which a table is open. *)
Lemma scan_named rows : forall T name d,
  truthy name = true ->
  save_table (fold_left scan_row rows
                {| tables_so_far := T; current_table_name := Some name;
                   current_table_data := d |}) =
  fold_left commit_block (blocks rows)
    (save_table {| tables_so_far := T; current_table_name := Some name;
                   current_table_data := d ++ dropna_all (body_of rows) |}).
Proof.
  induction rows as [|r rows IH]; intros T name d Hn.
  - simpl. now rewrite app_nil_r.
  - cbn [fold_left blocks body_of]. destruct (is_header r) eqn:H.
    + rewrite scan_row_header by assumption.
      rewrite IH by now apply header_name_truthy.
      cbn [fold_left app]. change (dropna_all []) with (@nil Row).
      rewrite app_nil_r. now rewrite commit_block_save.
    + rewrite scan_row_data by assumption. cbn [current_table_name name_truthy].
      rewrite Hn. cbn [andb current_table_data tables_so_far].
      change (dropna_all (r :: body_of rows))
        with (if negb (all_na r) then r :: dropna_all (body_of rows)
              else dropna_all (body_of rows)).
      destruct (all_na r); cbn [negb].
      * apply IH; assumption.
      * rewrite IH by assumption. now rewrite <- app_assoc.
Qed.

(** The pass computes the tables of the blocks of the grid. *)
Lemma scan_tables_blocks df : scan_tables df = tables_of_blocks df.
Proof.
  unfold scan_tables, tables_of_blocks.
  induction df as [|r rows IH]; [reflexivity|].
  cbn [fold_left blocks]. destruct (is_header r) eqn:H.
  - rewrite scan_row_header by assumption.
    rewrite scan_named by now apply header_name_truthy.
    cbn [fold_left app]. now rewrite commit_block_save.
  - rewrite scan_row_data by assumption. exact IH.
Qed.

Lemma scan_prefix pre : forall df,
  (forall r, In r pre -> is_header r = false) ->
  scan_tables (pre ++ df) = scan_tables df.
Proof.
  unfold scan_tables. induction pre as [|r pre IH]; intros df H; [reflexivity|].
  cbn [app fold_left]. rewrite scan_row_data by (apply H; now left).
  cbn [scan_init current_table_name name_truthy andb].
  apply IH. intros r' Hr'. apply H. now right.
Qed.

Lemma scan_blank a r b :
  all_na r = true -> scan_tables (a ++ r :: b) = scan_tables (a ++ b).
Proof.
  intro H. unfold scan_tables. rewrite !fold_left_app. cbn [fold_left].
  now rewrite scan_row_blank.
Qed.

Lemma body_of_In rows r :
  In r (body_of rows) -> In r rows /\ is_header r = false.
Proof.
  induction rows as [|x rows IH]; simpl; [contradiction|].
  destruct (is_header x) eqn:H; [contradiction|].
  intros [->|Hr]; [auto | destruct (IH Hr); auto].
Qed.

Lemma blocks_In df h body :
  In (h, body) (blocks df) ->
  exists pre post,
    df = pre ++ h :: post /\ is_header h = true /\ body = body_of post.
Proof.
  induction df as [|r rows IH]; simpl; [contradiction|].
  destruct (is_header r) eqn:H.
  - intros [E|Hin].
    + inversion E; subst. exists [], rows. auto.
    + destruct (IH Hin) as (pre & post & -> & Hh & Hb).
      exists (r :: pre), post. auto.
  - intro Hin. destruct (IH Hin) as (pre & post & -> & Hh & Hb).
    exists (r :: pre), post. auto.
Qed.

Lemma blocks_get bs : forall T name t,
  Dict.get name (fold_left commit_block bs T) = Some t ->
  Dict.get name T = Some t \/
  exists h body, In (h, body) bs /\ name = strip (row_text h)
                 /\ t = pd_DataFrame (dropna_all body)
                 /\ dropna_all body <> [].
Proof.
  induction bs as [|[h body] bs IH]; intros T name t H; [now left|].
  cbn [fold_left] in H. apply IH in H as [H|(h' & b' & Hin & Hrest)].
  - unfold commit_block in H. cbn [fst snd] in H.
    destruct (dropna_all body) as [|x data] eqn:E; [now left|].
    apply get_set_inv in H as [[-> ->]|H]; [|now left].
    right. exists h, body. rewrite E. repeat split; [now left | discriminate].
  - right. exists h', b'. split; [now right | assumption].
Qed.

(** Every table of the pass is the frame built from the rows, not entirely
    absent, that lie between one header row and the next. *)
Lemma scan_tables_get rows name t :
  Dict.get name (scan_tables rows) = Some t ->
  exists pre h post,
    rows = pre ++ h :: post /\ is_header h = true
    /\ name = strip (row_text h)
    /\ t = pd_DataFrame (dropna_all (body_of post))
    /\ dropna_all (body_of post) <> [].
Proof.
  rewrite scan_tables_blocks. unfold tables_of_blocks. intro H.
  apply blocks_get in H as [H|(h & body & Hin & Hn & Ht & Hne)]; [discriminate|].
  apply blocks_In in Hin as (pre & post & Hdf & Hh & Hb). subst body.
  exists pre, h, post. auto.
Qed.

Lemma dropna_all_rows df row :
  In row (dropna_all df) -> In row df /\ all_na row = false.
Proof.
  unfold dropna_all. intro H. apply filter_In in H as [Hin Hna].
  split; [assumption | now apply negb_true_iff].
Qed.

(** The rows from which a table of the pass is built are rows of the grid
    that are neither entirely absent nor header candidates. *)
Lemma scan_tables_rows rows name t :
  Dict.get name (scan_tables rows) = Some t ->
  exists data,
    t = pd_DataFrame data /\ data <> []
    /\ forall row, In row data ->
                   In row rows /\ all_na row = false /\ is_header row = false.
Proof.
  intro H. apply scan_tables_get in H as (pre & h & post & -> & _ & _ & -> & Hne).
  exists (dropna_all (body_of post)). repeat split; auto.
  - apply dropna_all_rows in H as [Hb _]. apply body_of_In in Hb as [Hb _].
    apply in_or_app. right. now right.
  - now apply dropna_all_rows in H.
  - apply dropna_all_rows in H as [Hb _]. now apply body_of_In in Hb.
Qed.

Lemma frame_rows_present (data : list Row) row :
  (forall r, In r data -> all_na r = false) ->
  In row (pd_DataFrame data) -> all_na row = false.
Proof.
  intros H Hr.
  destruct (map_all_na_In _ _ row (pd_DataFrame_all_na data) Hr)
    as (r & Hin & E).
  rewrite <- E. now apply H.
Qed.

Lemma extract_when_saved df sheet_name :
  scan_tables (iterrows df) <> [] ->
  _extract_tables_from_sheet df sheet_name = scan_tables (iterrows df).
Proof.
  unfold _extract_tables_from_sheet. destruct (scan_tables (iterrows df)); congruence.
Qed.

Lemma width_ge df row : In row df -> (List.length row <= width df)%nat.
Proof. exact (width_bound df row). Qed.

Lemma width_zero_rows df row : width df = 0%nat -> In row df -> row = [].
Proof.
  intros W H. apply width_ge in H. rewrite W in H.
  destruct row; [reflexivity | simpl in H; lia].
Qed.

Lemma present_has_width df row :
  In row df -> isna (first_cell row) = false -> (width df =? 0)%nat = false.
Proof.
  intros H N. apply Nat.eqb_neq. intro W.
  rewrite (width_zero_rows _ _ W H) in N. discriminate.
Qed.

Lemma not_all_na_first row : all_na row = false -> row <> [].
Proof. intros H E. subst row. discriminate. Qed.

Lemma df_empty_dropna_all df :
  df_empty (dropna_all df) = match dropna_all df with [] => true | _ => false end.
Proof.
  destruct (dropna_all df) as [|x rows] eqn:E; [reflexivity|].
  unfold df_empty. apply Nat.eqb_neq. intro W.
  assert (Hx : In x (dropna_all df)) by (rewrite E; now left).
  rewrite <- E in W. pose proof (width_zero_rows _ _ W Hx) as X.
  unfold dropna_all in Hx. apply filter_In in Hx as [_ Hx].
  subst x. discriminate.
Qed.

Lemma extract_when_not_saved df sheet_name :
  scan_tables (iterrows df) = [] -> dropna_all df <> [] ->
  _extract_tables_from_sheet df sheet_name =
  [(sheet_name ++ lit "_data", dropna_all df)].
Proof.
  intros E N. unfold _extract_tables_from_sheet. rewrite E.
  rewrite df_empty_dropna_all. destruct (dropna_all df); [congruence | reflexivity].
Qed.

Lemma extract_rows_present df sheet_name name t row :
  Dict.get name (_extract_tables_from_sheet df sheet_name) = Some t ->
  In row t -> all_na row = false.
Proof.
  unfold _extract_tables_from_sheet.
  destruct (scan_tables (iterrows df)) as [|kv T] eqn:E.
  - destruct (df_empty (dropna_all df)); [discriminate|].
    intros H Hr. apply get_set_inv in H as [[_ ->]|H]; [|discriminate].
    now apply dropna_all_rows in Hr.
  - rewrite <- E. intros H Hr.
    apply scan_tables_rows in H as (data & -> & _ & Hd).
    apply (frame_rows_present data); [|assumption].
    intros r Hin. now apply Hd.
Qed.

(** C1, as the code has it.  The segmenter makes one pass over the rows
    from the top.  On a header-candidate row it saves the accumulated table,
    as the frame [pd.DataFrame] builds from the accumulated rows, exactly
    when a name is set and at least one row has accumulated, replacing a
    table saved earlier under the same name, then takes the trimmed text of
    the row as the name and empties the accumulator.  A row that is not a
    header is appended as it is exactly when a name is set and the row is not
    entirely absent.  After the last row the same save is made once more.
    The rows before the first header and the entirely absent rows leave no
    trace in the tables of the pass: each one is built from the rows, not
    entirely absent, between a header and the next header.  The tables of the
    pass are the result of the segmenter whenever the pass saved one;
    otherwise the fallback table holds every row that is not entirely absent,
    wherever it stands.  No table of the segmenter holds an entirely absent
    row. *)
Theorem segmenter_single_pass :
  (forall rows, scan_tables rows = save_table (fold_left scan_row rows scan_init))
  /\ (forall st row, is_header row = true ->
        scan_row st row =
        {| tables_so_far := save_table st;
           current_table_name := Some (strip (row_text row));
           current_table_data := [] |})
  /\ (forall T name d, name <> [] -> d <> [] ->
        save_table {| tables_so_far := T; current_table_name := Some name;
                      current_table_data := d |} = Dict.set name (pd_DataFrame d) T
        /\ Dict.get name (Dict.set name (pd_DataFrame d) T) = Some (pd_DataFrame d))
  /\ (forall T name d, name = None \/ d = [] ->
        save_table {| tables_so_far := T; current_table_name := name;
                      current_table_data := d |} = T)
  /\ (forall st row, is_header row = false ->
        scan_row st row =
        if name_truthy (current_table_name st) && negb (all_na row)
        then {| tables_so_far := tables_so_far st;
                current_table_name := current_table_name st;
                current_table_data := current_table_data st ++ [row] |}
        else st)
  /\ (forall pre rows, (forall r, In r pre -> is_header r = false) ->
        scan_tables (pre ++ rows) = scan_tables rows)
  /\ (forall a r b, all_na r = true ->
        scan_tables (a ++ r :: b) = scan_tables (a ++ b))
  /\ (forall rows name t, Dict.get name (scan_tables rows) = Some t ->
        exists pre h post,
          rows = pre ++ h :: post /\ is_header h = true
          /\ name = strip (row_text h)
          /\ t = pd_DataFrame (dropna_all (body_of post))
          /\ dropna_all (body_of post) <> [])
  /\ (forall rows, scan_tables rows = tables_of_blocks rows)
  /\ (forall df sheet_name, scan_tables (iterrows df) <> [] ->
        _extract_tables_from_sheet df sheet_name = scan_tables (iterrows df))
  /\ (forall df sheet_name,
        scan_tables (iterrows df) = [] -> dropna_all df <> [] ->
        _extract_tables_from_sheet df sheet_name =
        [(sheet_name ++ lit "_data", dropna_all df)])
  /\ (forall df sheet_name name t row,
        Dict.get name (_extract_tables_from_sheet df sheet_name) = Some t ->
        In row t -> all_na row = false).
Proof.
  split; [reflexivity|].
  split; [exact scan_row_header|].
  split.
  { intros T name d Hn Hd. split; [now apply save_table_named | apply get_set_same]. }
  split.
  { intros T name d [->| ->]; [reflexivity | apply save_table_no_rows]. }
  split; [exact scan_row_data|].
  split; [exact scan_prefix|].
  split; [exact scan_blank|].
  split; [exact scan_tables_get|].
  split; [exact scan_tables_blocks|].
  split; [exact extract_when_saved|].
  split; [exact extract_when_not_saved | exact extract_rows_present].
Qed.

Lemma blocks_no_header df :
  (forall r, In r df -> is_header r = false) -> blocks df = [].
Proof.
  induction df as [|r rows IH]; intro H; [reflexivity|].
  simpl. rewrite (H r) by now left. apply IH. intros x Hx. apply H. now right.
Qed.

(** C5, as the code has it.  On a grid without header-candidate rows (the
    rows being read as [iterrows] yields them) the segmenter returns the
    single table ["{sheetName}_data"] holding the rows of the grid that are
    not entirely absent, in their order, when there is such a row, and no
    table at all when every row is entirely absent or the grid has no
    row. *)
Theorem fallback_table df sheet_name :
  (forall r, In r (iterrows df) -> is_header r = false) ->
  _extract_tables_from_sheet df sheet_name =
  match filter (fun row => negb (all_na row)) df with
  | [] => []
  | rows => [(sheet_name ++ lit "_data", rows)]
  end.
Proof.
  intro H. unfold _extract_tables_from_sheet.
  rewrite scan_tables_blocks. unfold tables_of_blocks.
  rewrite (blocks_no_header _ H). cbn [fold_left].
  rewrite df_empty_dropna_all. unfold dropna_all.
  destruct (filter _ df); reflexivity.
Qed.

Lemma extract_keys df sheet_name name :
  In name (Dict.keys (_extract_tables_from_sheet df sheet_name)) ->
  (exists row, In row (iterrows df) /\ is_header row = true
               /\ name = strip (row_text row))
  \/ name = sheet_name ++ lit "_data".
Proof.
  unfold _extract_tables_from_sheet.
  destruct (scan_tables (iterrows df)) as [|kv T] eqn:E.
  - destruct (df_empty (dropna_all df)); [contradiction|].
    simpl. intros [<-|[]]. now right.
  - rewrite <- E. intro H. apply get_In_keys in H as [t H].
    apply scan_tables_get in H as (pre & h & post & R & Hh & Hn & _).
    left. exists h. repeat split; auto. rewrite R. apply in_or_app. right. now left.
Qed.

Lemma extract_keys_non_empty df sheet_name name :
  In name (Dict.keys (_extract_tables_from_sheet df sheet_name)) -> name <> [].
Proof.
  intro H. apply extract_keys in H as [(row & _ & Hh & ->)| ->].
  - now apply header_not_blank.
  - intro E. apply app_eq_nil in E as [_ E]. discriminate.
Qed.

Lemma identify_keys sheets : forall T name,
  In name (Dict.keys (_identify_tables sheets T)) ->
  In name (Dict.keys T) \/
  exists sheet df, In (sheet, df) sheets
                   /\ In name (Dict.keys (_extract_tables_from_sheet df sheet)).
Proof.
  unfold _identify_tables.
  induction sheets as [|[sheet df] sheets IH]; intros T name H; [now left|].
  cbn [fold_left fst snd] in H. apply IH in H as [H|(s & d & Hin & Hk)].
  - apply keys_update in H as [H|H]; [now left|].
    right. exists sheet, df. split; [now left | assumption].
  - right. exists s, d. split; [now right | assumption].
Qed.

(** C9. Every table that the segmenter places in the registry has a name
    that is not empty: a name is the trimmed text of a row that the header
    predicate accepted, and the predicate rejects blank text, or it is the
    fallback name ["{sheetName}_data"]. *)
Theorem registry_names_non_empty :
  (forall text, _is_potential_table_header text = true ->
                strip text <> [] /\ forallb isspace text = false)
  /\ (forall df sheet_name name,
        In name (Dict.keys (_extract_tables_from_sheet df sheet_name)) ->
        name <> [] /\
        ((exists row, In row (iterrows df)
                      /\ _is_potential_table_header (row_text row) = true
                      /\ name = strip (row_text row))
         \/ name = sheet_name ++ lit "_data"))
  /\ (forall sheets name,
        In name (Dict.keys (_identify_tables sheets [])) -> name <> [])
  /\ (forall file name,
        match fst (initialize_processor file) with
        | Some p => In name (get_table_names (tables p)) -> name <> []
        | None => True
        end).
Proof.
  assert (I : forall sheets name,
             In name (Dict.keys (_identify_tables sheets [])) -> name <> []).
  { intros sheets name H. apply identify_keys in H as [[]|(s & d & _ & H)].
    now apply extract_keys_non_empty in H. }
  split.
  { intros text H. split; [now apply header_not_blank|].
    rewrite header_formula in H. unfold blank in H.
    destruct (forallb isspace text); [discriminate | reflexivity]. }
  split.
  { intros df sheet_name name H. split.
    - now apply extract_keys_non_empty in H.
    - now apply extract_keys. }
  split; [exact I|].
  intros file name. destruct file as [|msg|sheets]; simpl; try contradiction.
  apply I.
Qed.

(* ------------------------------------------------------------------ *)
(** * The resolver *)

Lemma row_names_loop cells : forall acc,
  fold_left
    (fun row_names value =>
       if notna value && truthy (strip (cell_str value))
       then row_names ++ [strip (cell_str value)]
       else row_names)
    cells acc =
  acc ++ map (fun c => strip (cell_str c))
             (filter (fun c => notna c && truthy (strip (cell_str c))) cells).
Proof.
  induction cells as [|c cells IH]; intro acc; simpl.
  - now rewrite app_nil_r.
  - rewrite IH. destruct (notna c && truthy (strip (cell_str c))); simpl; auto.
    now rewrite <- app_assoc.
Qed.

Lemma labels_of_empty df : df_empty df = true -> labels df = [].
Proof.
  unfold df_empty, labels. destruct df as [|r rows]; [reflexivity|].
  intro W. apply Nat.eqb_eq in W.
  assert (F : forall c, In c (map first_cell (r :: rows)) -> c = CNone).
  { intros c Hc. apply in_map_iff in Hc as (row & <- & Hrow).
    now rewrite (width_zero_rows _ _ W Hrow). }
  induction (map first_cell (r :: rows)) as [|c cs IH]; [reflexivity|].
  simpl. rewrite (F c) by now left. simpl. apply IH.
  intros x Hx. apply F. now right.
Qed.

Lemma row_names_labels tables name df :
  Dict.get name tables = Some df ->
  get_table_row_names tables name = Ok (labels df).
Proof.
  intro H. unfold get_table_row_names. rewrite H.
  destruct (df_empty df) eqn:E.
  - now rewrite labels_of_empty.
  - now rewrite row_names_loop.
Qed.

Lemma labels_In df l :
  In l (labels df) <-> exists row, In row df /\ has_label l row /\ l <> [].
Proof.
  unfold labels, has_label. rewrite in_map_iff. split.
  - intros (c & <- & Hc). apply filter_In in Hc as [Hc P].
    apply in_map_iff in Hc as (row & <- & Hrow).
    apply andb_true_iff in P as [N T].
    exists row. repeat split; auto.
    + unfold notna in N. now apply negb_true_iff.
    + now apply truthy_true_iff.
  - intros (row & Hrow & [N <-] & T). exists (first_cell row). split; auto.
    apply filter_In. split; [now apply in_map|].
    apply andb_true_iff. split.
    + unfold notna. now rewrite N.
    + now apply truthy_true_iff.
Qed.

(** C6. For a name in the registry the row labels are the trimmed string
    forms of the first cells of the rows of the table, in row order, without
    the rows whose first cell is absent or whose trimmed form is empty; for
    a name that is not in the registry the call fails with the not-found
    error, which the handler answers with status 404. *)
Theorem list_row_labels_spec :
  (forall tables name df,
      Dict.get name tables = Some df ->
      get_table_row_names tables name =
      Ok (map (fun c => strip (cell_str c))
              (filter (fun c => negb (isna c)
                                && negb (PyStr.eqb (strip (cell_str c)) []))
                      (map first_cell df))))
  /\ (forall tables name,
        In name (get_table_names tables) ->
        exists df, Dict.get name tables = Some df
                   /\ get_table_row_names tables name = Ok (labels df))
  /\ (forall tables name,
        ~ In name (get_table_names tables) ->
        get_table_row_names tables name = Raise (table_not_found name))
  /\ (forall p name,
        ~ In name (get_table_names (tables p)) ->
        get_table_details (Some p) name =
        HTTPException 404 (lit "Table '" ++ name ++ lit "' not found")).
Proof.
  assert (A : forall tables name,
             ~ In name (get_table_names tables) -> Dict.get name tables = None).
  { intros tables name N. destruct (Dict.get name tables) eqn:E; auto.
    exfalso. apply N. apply get_In_keys. eauto. }
  split.
  { intros tables name df H. rewrite (row_names_labels _ _ _ H).
    unfold labels. do 2 f_equal. apply filter_ext. intro c. unfold notna.
    f_equal. destruct (strip (cell_str c)); reflexivity. }
  split.
  { intros tables name H. apply get_In_keys in H as [df H].
    exists df. split; [assumption | now apply row_names_labels]. }
  split.
  { intros tables name N. unfold get_table_row_names. now rewrite (A _ _ N). }
  intros p name N. unfold get_table_details, get_table_row_names.
  now rewrite (A _ _ N).
Qed.

Lemma row_matches_iff label row :
  row_matches label row = true <-> has_label label row.
Proof.
  unfold row_matches, has_label, notna.
  rewrite andb_true_iff, negb_true_iff, eqb_true_iff. tauto.
Qed.

Lemma find_row_first label pre : forall row post,
  (forall r, In r pre -> ~ has_label label r) ->
  has_label label row ->
  find_row label (pre ++ row :: post) = Some row.
Proof.
  induction pre as [|x pre IH]; intros row post Hpre Hrow; simpl.
  - apply row_matches_iff in Hrow. now rewrite Hrow.
  - destruct (row_matches label x) eqn:E.
    + apply row_matches_iff in E. exfalso. apply (Hpre x); [now left | assumption].
    + apply IH; auto. intros r Hr. apply Hpre. now right.
Qed.

Lemma find_row_some label rows row :
  In row rows -> has_label label row ->
  exists target, find_row label rows = Some target /\ has_label label target.
Proof.
  induction rows as [|x rows IH]; intros Hin Hrow; [contradiction|].
  simpl. destruct (row_matches label x) eqn:E.
  - exists x. split; [reflexivity | now apply row_matches_iff].
  - destruct Hin as [->|Hin].
    + apply row_matches_iff in Hrow. congruence.
    + auto.
Qed.

Lemma find_row_In label rows target :
  find_row label rows = Some target -> In target rows.
Proof.
  induction rows as [|x rows IH]; [discriminate|].
  simpl. destruct (row_matches label x).
  - intro H. injection H as ->. now left.
  - intro H. right. auto.
Qed.

Lemma find_row_none label rows :
  (forall r, In r rows -> ~ has_label label r) -> find_row label rows = None.
Proof.
  induction rows as [|x rows IH]; intro H; [reflexivity|].
  simpl. destruct (row_matches label x) eqn:E.
  - apply row_matches_iff in E. exfalso. apply (H x); [now left | assumption].
  - apply IH. intros r Hr. apply H. now right.
Qed.

Lemma sum_cells_loop cells : forall acc,
  fold_left
    (fun numerical_sum value =>
       if notna value
       then match _extract_numeric_value value with
            | Some numeric_value => add_float numerical_sum numeric_value
            | None => numerical_sum
            end
       else numerical_sum)
    cells acc = fold_left add_float (coerced cells) acc.
Proof.
  induction cells as [|c cells IH]; intro acc; [reflexivity|].
  cbn [fold_left coerced flat_map]. rewrite fold_left_app, IH.
  unfold notna. destruct (isna c); [reflexivity|].
  cbn [negb]. now destruct (_extract_numeric_value c).
Qed.

Lemma sum_cells_coerced cells : sum_cells cells = PyNum.sum (coerced cells).
Proof. apply sum_cells_loop. Qed.

(** A frame one of whose rows, as [iterrows] yields it, has a cell, has a
    column. *)
Lemma iterrows_has_width df c cells :
  In (c :: cells) (iterrows df) ->
  rows_truthy df && (width df =? 0)%nat = false.
Proof.
  intro H. apply iterrows_length_row in H. simpl in H.
  apply andb_false_iff. right. apply Nat.eqb_neq. lia.
Qed.

(** The sum of the first row that carries the label: the cells after its
    first cell. *)
Lemma row_sum_target (tables : Dict.t DataFrame) name label df pre c cells post :
  Dict.get name tables = Some df ->
  iterrows df = pre ++ (c :: cells) :: post ->
  (forall r, In r pre -> ~ has_label label r) ->
  has_label label (c :: cells) ->
  calculate_row_sum tables name label = Ok (PyNum.sum (coerced cells)).
Proof.
  intros H R Hpre Hrow. unfold calculate_row_sum. rewrite H.
  rewrite (iterrows_has_width df c cells)
    by (rewrite R; apply in_or_app; right; now left).
  rewrite R, find_row_first by assumption.
  cbn [rest_cells tl]. now rewrite sum_cells_coerced.
Qed.

Lemma coerced_app a b : coerced (a ++ b) = coerced a ++ coerced b.
Proof. unfold coerced. apply flat_map_app. Qed.


(** C8, evaluated on the code.  When no cell after the label of the target
    row coerces to a number, the sum is the integer [0] from which the
    accumulation starts, not the float [0.0] that an addition would have
    produced; no error is raised. *)
Theorem sum_row_nothing_coerced
    (tables : Dict.t DataFrame) name label df pre c cells post :
  Dict.get name tables = Some df ->
  iterrows df = pre ++ (c :: cells) :: post ->
  (forall r, In r pre -> ~ has_label label r) ->
  has_label label (c :: cells) ->
  coerced cells = [] ->
  calculate_row_sum tables name label = Ok (PyInt 0)
  /\ calculate_row_sum tables name label <> Ok (PyFloat (S754_zero false))
  /\ to_float (PyInt 0) = S754_zero false.
Proof.
  intros H R Hpre Hrow E.
  rewrite (row_sum_target _ _ _ _ _ _ _ _ H R Hpre Hrow), E.
  repeat split. discriminate.
Qed.

Lemma retype_not_float k c : k <> Float64 -> retype k c = c.
Proof. destruct k; [reflexivity | congruence | reflexivity]. Qed.

Lemma first_cell_pad w row : first_cell (pad w row) = first_cell row.
Proof.
  unfold pad. destruct row as [|c row]; [|reflexivity].
  simpl. now destruct (w - 0)%nat.
Qed.

(** When [iterrows] does not turn the rows into floats, the first cell of
    each row it yields is the first cell as stored. *)
Lemma iterrows_first_cells df :
  row_dtype (dtypes df) <> Float64 ->
  map first_cell (iterrows df) = map first_cell df.
Proof.
  intro K. unfold iterrows. rewrite map_map. apply map_ext.
  intro row. rewrite <- (first_cell_pad (width df) row).
  destruct (pad (width df) row) as [|c r]; [reflexivity|].
  simpl. now apply retype_not_float.
Qed.

Lemma has_label_first label (a b : Row) :
  first_cell a = first_cell b -> has_label label a -> has_label label b.
Proof. unfold has_label. now intros <-. Qed.

Lemma map_first_cell_In (a b : list Row) row :
  map first_cell a = map first_cell b -> In row b ->
  exists row', In row' a /\ first_cell row' = first_cell row.
Proof.
  revert a. induction b as [|y b IH]; intros [|x a] H Hin; simpl in *;
    try discriminate; [contradiction|].
  injection H as Hx Hab. destruct Hin as [->|Hin].
  - exists x. auto.
  - destruct (IH a Hab Hin) as (row' & Hr & E). eauto.
Qed.

(** C10, evaluated on the code.  A listed label is found by the sum when
    [iterrows] yields the rows of the table in their stored types (the table
    has an object column, or integer columns only).  When the table has
    numeric columns only and a float64 column among them, its integer labels
    are listed as integers and compared as floats: for the sheet
    [["Revenue", "Q1"], [7, blank], [8, blank]] the table "Revenue Q1" lists
    the labels "7" and "8", and the sum for "7" fails with the row-not-found
    error as soon as the text of the float 7.0 is not "7". *)
Theorem listed_label_is_found :
  (forall (tables : Dict.t DataFrame) name row_names label df,
      Dict.get name tables = Some df ->
      row_dtype (dtypes df) <> Float64 ->
      get_table_row_names tables name = Ok row_names ->
      In label row_names ->
      exists c cells,
        find_row label (iterrows df) = Some (c :: cells)
        /\ strip (cell_str c) = label
        /\ calculate_row_sum tables name label =
           Ok (PyNum.sum (coerced cells)))
  /\ (let sheet := [[CStr (lit "Revenue"); CStr (lit "Q1")];
                    [CInt 7; CFloat S754_nan];
                    [CInt 8; CFloat S754_nan]] in
      let tables := _extract_tables_from_sheet sheet (lit "Sheet1") in
      tables = [(lit "Revenue Q1", [[CInt 7; CFloat S754_nan];
                                    [CInt 8; CFloat S754_nan]])]
      /\ get_table_row_names tables (lit "Revenue Q1") = Ok [lit "7"; lit "8"]
      /\ iterrows [[CInt 7; CFloat S754_nan]; [CInt 8; CFloat S754_nan]] =
         [[CFloat (float_of_int 7); CFloat S754_nan];
          [CFloat (float_of_int 8); CFloat S754_nan]]
      /\ (strip (float_str (float_of_int 7)) <> lit "7" ->
          strip (float_str (float_of_int 8)) <> lit "7" ->
          calculate_row_sum tables (lit "Revenue Q1") (lit "7") =
          Raise (row_not_found (lit "7") (lit "Revenue Q1")))).
Proof.
  split.
  { intros tables name row_names label df G K H Hl.
    rewrite (row_names_labels _ _ _ G) in H. injection H as <-.
    apply labels_In in Hl as (row & Hrow & Hlab & _).
    destruct (map_first_cell_In (iterrows df) df row
                (iterrows_first_cells df K) Hrow) as (row' & Hin' & E).
    assert (L' : has_label label row')
      by (apply (has_label_first label row row'); [now symmetry | assumption]).
    destruct (find_row_some _ _ _ Hin' L') as (target & F & T).
    destruct target as [|c cells].
    - destruct T as [T _]. discriminate T.
    - exists c, cells. split; [assumption|]. split; [apply T|].
      unfold calculate_row_sum. rewrite G.
      rewrite (iterrows_has_width df c cells)
        by (now apply (find_row_In label)).
      rewrite F. cbn [rest_cells tl]. now rewrite sum_cells_coerced. }
  cbv zeta.
  assert (E : _extract_tables_from_sheet
                [[CStr (lit "Revenue"); CStr (lit "Q1")];
                 [CInt 7; CFloat S754_nan]; [CInt 8; CFloat S754_nan]]
                (lit "Sheet1") =
              [(lit "Revenue Q1", [[CInt 7; CFloat S754_nan];
                                   [CInt 8; CFloat S754_nan]])])
    by (vm_compute; reflexivity).
  rewrite E.
  assert (R : iterrows [[CInt 7; CFloat S754_nan]; [CInt 8; CFloat S754_nan]] =
              [[CFloat (float_of_int 7); CFloat S754_nan];
               [CFloat (float_of_int 8); CFloat S754_nan]])
    by (vm_compute; reflexivity).
  split; [reflexivity|].
  split; [vm_compute; reflexivity|].
  split; [exact R|].
  intros N7 N8. unfold calculate_row_sum.
  cbn [Dict.get]. rewrite eqb_refl.
  replace (rows_truthy _ && (width _ =? 0)%nat) with false
    by (vm_compute; reflexivity).
  rewrite R, find_row_none; [reflexivity|].
  intros r [<-|[<-|[]]] [_ L]; simpl in L; contradiction.
Qed.

Lemma sum_cells_skips_absent a c b :
  isna c = true -> sum_cells (a ++ c :: b) = sum_cells (a ++ b).
Proof.
  intro H. rewrite !sum_cells_coerced, !coerced_app. do 2 f_equal.
  change (c :: b) with ([c] ++ b). rewrite coerced_app.
  unfold coerced at 1. simpl. now rewrite H.
Qed.

(** C4, as the code has it.  Coercion returns a native number as a float,
    an integer below 2^53 in absolute value as the float of the same value
    and a float as it is, the NaN that marks a blank cell included.  For
    text it returns the float read from what is left once every character
    that is not a digit, a point or a minus sign is removed, when that is
    not empty and reads as a float, and reports the text non-coercible
    otherwise; text that leaves digits only reads as the integer they spell.
    A cell that holds [None] is non-coercible; absent cells are skipped by
    the sum before they are coerced.  ["12-3"] is left as it is by the
    cleaning, does not read as a float and is non-coercible. *)
Theorem coerce_cases :
  (forall z, _extract_numeric_value (CInt z) = Some (float_of_int z))
  /\ (forall z, (0 < Z.abs z < 2 ^ 53)%Z ->
        exists m e,
          _extract_numeric_value (CInt z) = Some (S754_finite (z <? 0)%Z m e)
          /\ (e <= 0)%Z /\ Zpos m = (Z.abs z * 2 ^ (- e))%Z)
  /\ _extract_numeric_value (CInt 0) = Some (S754_zero false)
  /\ (forall f, _extract_numeric_value (CFloat f) = Some f)
  /\ (forall s, re_sub_non_numeric s = numeric_chars s)
  /\ (forall s c, In c (numeric_chars s) <->
                  In c s /\ (isdigit c = true \/ c = "."%char \/ c = "-"%char))
  /\ (forall s, _extract_numeric_value (CStr s) =
                match numeric_chars s with
                | [] => None
                | cleaned => float_of_str cleaned
                end)
  /\ (forall s,
        numeric_chars s <> [] ->
        forallb isdigit (numeric_chars s) = true ->
        (digits_val 0 (numeric_chars s) < 2 ^ 53)%Z ->
        _extract_numeric_value (CStr s) =
        Some (float_of_int (digits_val 0 (numeric_chars s))))
  /\ _extract_numeric_value (CStr (lit "$2,000")) =
     Some (S754_finite false (2000 * 2 ^ 42) (-42))
  /\ _extract_numeric_value (CStr (lit "15%")) =
     Some (S754_finite false (15 * 2 ^ 49) (-49))
  /\ _extract_numeric_value (CStr (lit "-1.5")) =
     Some (S754_finite true (3 * 2 ^ 51) (-52))
  /\ _extract_numeric_value (CStr (lit "0.1")) =
     Some (S754_finite false 7205759403792794 (-56))
  /\ _extract_numeric_value (CStr (lit "abc")) = None
  /\ _extract_numeric_value (CStr (lit "1.2.3")) = None
  /\ _extract_numeric_value (CStr (lit "-")) = None
  /\ _extract_numeric_value CNone = None
  /\ (forall c, isna c = true -> c = CNone \/ c = CFloat S754_nan)
  /\ _extract_numeric_value (CFloat S754_nan) = Some S754_nan
  /\ (forall a c b, isna c = true -> sum_cells (a ++ c :: b) = sum_cells (a ++ b))
  /\ numeric_chars (lit "12-3") = lit "12-3"
  /\ float_of_str (lit "12-3") = None
  /\ _extract_numeric_value (CStr (lit "12-3")) = None.
Proof.
  split; [reflexivity|].
  split.
  { intros z H. destruct (float_of_int_exact z H) as (m & e & F & E & V).
    exists m, e. simpl. rewrite F. auto. }
  split; [reflexivity|].
  split; [reflexivity|].
  split; [exact re_sub_is_filter|].
  split.
  { intros s c. unfold numeric_chars. rewrite filter_In.
    rewrite !orb_true_iff, !Ascii.eqb_eq. tauto. }
  split.
  { intro s. simpl. rewrite re_sub_is_filter.
    destruct (numeric_chars s); reflexivity. }
  split.
  { intros s N D B. simpl. rewrite re_sub_is_filter.
    rewrite <- (float_of_str_digits _ N D B).
    destruct (numeric_chars s); [congruence | reflexivity]. }
  split; [vm_compute; reflexivity|].
  split; [vm_compute; reflexivity|].
  split; [vm_compute; reflexivity|].
  split; [vm_compute; reflexivity|].
  split; [reflexivity|].
  split; [reflexivity|].
  split; [reflexivity|].
  split; [reflexivity|].
  split.
  { intros c H. destruct c as [|z|[]|s]; try discriminate H; auto. }
  split; [reflexivity|].
  split; [exact sum_cells_skips_absent|].
  repeat split; reflexivity.
Qed.

(* ------------------------------------------------------------------ *)
(** * Queries after a failed load *)

(** C7, evaluated on the code.  When the source file is missing or
    unreadable, [initialize_processor] returns [False] and leaves in the
    global an object with an empty registry; the global is therefore not
    [None], and the queries do not answer "Excel processor not initialized":
    the listing answers with the empty list, the two others with the
    not-found status 404. *)
Theorem queries_after_failed_load :
  initialize_processor Missing = (Some (new_processor EXCEL_FILE_PATH), false)
  /\ (forall msg, initialize_processor (Unreadable msg) =
                  (Some (new_processor EXCEL_FILE_PATH), false))
  /\ tables (new_processor EXCEL_FILE_PATH) = []
  /\ list_tables (fst (initialize_processor Missing)) = Http200 []
  /\ (forall name,
        get_table_details (fst (initialize_processor Missing)) name =
        HTTPException 404 (lit "Table '" ++ name ++ lit "' not found"))
  /\ (forall name row,
        row_sum (fst (initialize_processor Missing)) name row =
        HTTPException 404 (lit "Table '" ++ name ++ lit "' not found"))
  /\ health_check (fst (initialize_processor Missing)) = true
  /\ list_tables None = not_initialized.
Proof.
  repeat split; reflexivity.
Qed.

(* ------------------------------------------------------------------ *)
(** * Further properties of the segmenter *)

Lemma set_items (V : Type) (k k' : str) (v v' : V) (d : Dict.t V) :
  In (k', v') (Dict.set k v d) -> (k' = k /\ v' = v) \/ In (k', v') d.
Proof.
  induction d as [|[k0 v0] d IH]; simpl.
  - intros [E|[]]. inversion E. auto.
  - destruct (PyStr.eqb k k0) eqn:E; simpl.
    + apply eqb_true_iff in E. subst k0.
      intros [H|H]; [inversion H; auto | auto].
    + intros [H|H]; [auto|]. apply IH in H as [H|H]; auto.
Qed.

Lemma update_items (V : Type) (other : Dict.t V) : forall d k v,
  In (k, v) (Dict.update d other) -> In (k, v) d \/ In (k, v) other.
Proof.
  unfold Dict.update.
  induction other as [|[k0 v0] other IH]; simpl; intros d k v H; auto.
  apply IH in H as [H|H]; auto.
  apply set_items in H as [[-> ->]|H]; auto.
Qed.

Lemma blocks_items bs : forall T name t,
  In (name, t) (fold_left commit_block bs T) ->
  In (name, t) T \/
  exists h body, In (h, body) bs /\ name = strip (row_text h)
                 /\ t = pd_DataFrame (dropna_all body)
                 /\ dropna_all body <> [].
Proof.
  induction bs as [|[h body] bs IH]; intros T name t H; [now left|].
  cbn [fold_left] in H. apply IH in H as [H|(h' & b' & Hin & Hrest)].
  - unfold commit_block in H. cbn [fst snd] in H.
    destruct (dropna_all body) as [|x data] eqn:E; [now left|].
    apply set_items in H as [[-> ->]|H]; [|now left].
    right. exists h, body. rewrite E. repeat split; [now left | discriminate].
  - right. exists h', b'. split; [now right | assumption].
Qed.

Lemma extract_items df sheet_name name t :
  In (name, t) (_extract_tables_from_sheet df sheet_name) ->
  t <> [] /\ forall row, In row t -> all_na row = false.
Proof.
  unfold _extract_tables_from_sheet.
  destruct (scan_tables (iterrows df)) as [|kv T] eqn:E.
  - rewrite df_empty_dropna_all.
    destruct (dropna_all df) as [|x rows] eqn:D; [contradiction|].
    simpl. intros [H|[]]. inversion H; subst. split; [discriminate|].
    intros row Hr. rewrite <- D in Hr. now apply dropna_all_rows in Hr.
  - rewrite <- E, scan_tables_blocks. unfold tables_of_blocks. intro H.
    apply blocks_items in H as [[]|(h & body & Hin & _ & -> & Hne)].
    split; [now rewrite pd_DataFrame_nil|].
    intros row Hr. apply (frame_rows_present (dropna_all body)); [|exact Hr].
    intros r Hr'. now apply dropna_all_rows in Hr'.
Qed.

Lemma rows_present_not_empty (t : DataFrame) :
  t <> [] -> (forall row, In row t -> all_na row = false) -> df_empty t = false.
Proof.
  intros Hne Hrows. destruct t as [|r t]; [congruence|].
  unfold df_empty. apply Nat.eqb_neq. intro W.
  assert (Hr : In r (r :: t)) by now left.
  pose proof (Hrows r Hr) as A.
  rewrite (width_zero_rows _ _ W Hr) in A. discriminate.
Qed.

(** X1. Every table that the segmenter returns for a sheet has at least
    one row, none of its rows is entirely absent, and so the table is never
    an empty frame. *)
Theorem extracted_tables_have_rows df sheet_name name t :
  Dict.get name (_extract_tables_from_sheet df sheet_name) = Some t ->
  t <> []
  /\ (forall row, In row t -> all_na row = false)
  /\ df_empty t = false.
Proof.
  intro H. apply get_In in H. apply extract_items in H as [Hne Hrows].
  repeat split; auto.
  apply rows_present_not_empty; assumption.
Qed.

Lemma scan_nil_when_blank rows : dropna_all rows = [] -> scan_tables rows = [].
Proof.
  intro D. destruct (scan_tables rows) as [|[k t] T] eqn:E; [reflexivity|].
  assert (G : Dict.get k (scan_tables rows) = Some t).
  { rewrite E. simpl. now rewrite eqb_refl. }
  apply scan_tables_get in G as (pre & h & post & -> & Hh & _).
  assert (A : all_na h = false).
  { destruct (all_na h) eqn:A; auto.
    rewrite (all_na_not_header _ A) in Hh. discriminate. }
  assert (I : In h (dropna_all (pre ++ h :: post))).
  { unfold dropna_all. apply filter_In. split.
    - apply in_or_app. right. now left.
    - now rewrite A. }
  rewrite D in I. destruct I.
Qed.

(** X2. The segmenter returns no table for a sheet exactly when every row
    of the grid is entirely absent (in particular for an empty grid). *)
Theorem no_table_iff_all_absent df sheet_name :
  _extract_tables_from_sheet df sheet_name = [] <->
  (forall row, In row df -> all_na row = true).
Proof.
  assert (F : dropna_all df = [] <-> forall row, In row df -> all_na row = true).
  { unfold dropna_all. split.
    - intros D row Hr. destruct (all_na row) eqn:A; auto.
      assert (I : In row (filter (fun row => negb (all_na row)) df)).
      { apply filter_In. split; [assumption | now rewrite A]. }
      rewrite D in I. destruct I.
    - intro H. induction df as [|r df IH]; [reflexivity|].
      simpl. rewrite (H r) by now left. simpl. apply IH.
      intros row Hr. apply H. now right. }
  rewrite <- F. unfold _extract_tables_from_sheet. split.
  - destruct (scan_tables (iterrows df)) as [|kv T] eqn:E; [|discriminate].
    rewrite df_empty_dropna_all.
    destruct (dropna_all df); [reflexivity|].
    intro H. exfalso. eapply set_not_nil. exact H.
  - intro D. rewrite scan_nil_when_blank.
    + now rewrite D.
    + now apply (dropna_all_all_na _ _ (iterrows_all_na df)).
Qed.

Lemma commit_block_get T b name :
  Dict.get name (commit_block T b) =
  match dropna_all (snd b) with
  | [] => Dict.get name T
  | data => if PyStr.eqb name (strip (row_text (fst b)))
            then Some (pd_DataFrame data)
            else Dict.get name T
  end.
Proof.
  unfold commit_block. destruct (dropna_all (snd b)) as [|x data]; [reflexivity|].
  destruct (PyStr.eqb name (strip (row_text (fst b)))) eqn:E.
  - apply eqb_true_iff in E. subst name. apply get_set_same.
  - apply eqb_false_iff in E. now apply get_set_other.
Qed.

Lemma blocks_lookup bs : forall T name,
  Dict.get name (fold_left commit_block bs T) =
  match last_saved name bs with
  | Some t => Some t
  | None => Dict.get name T
  end.
Proof.
  induction bs as [|b bs IH]; intros T name; [reflexivity|].
  cbn [fold_left last_saved]. rewrite IH.
  destruct (last_saved name bs); [reflexivity|].
  rewrite commit_block_get.
  destruct (dropna_all (snd b)); [reflexivity|].
  now destruct (PyStr.eqb name (strip (row_text (fst b)))).
Qed.

(** X3. Looking a name up in the tables of the pass gives the frame built
    from the rows of the last header block of that name that is followed by
    a row not entirely absent: among headers with the same trimmed text the
    later one wins, and a later header without such rows leaves the earlier
    table in place. *)
Theorem pass_lookup_last_block df name :
  Dict.get name (scan_tables df) = last_saved name (blocks df).
Proof.
  rewrite scan_tables_blocks. unfold tables_of_blocks.
  rewrite blocks_lookup. now destruct (last_saved name (blocks df)).
Qed.

Lemma body_of_app_header r h g :
  is_header h = true -> body_of (r ++ h :: g) = body_of r.
Proof.
  intro H. induction r as [|x r IH]; simpl.
  - now rewrite H.
  - destruct (is_header x); [reflexivity | now rewrite IH].
Qed.

Lemma blocks_app_header g1 h g2 :
  is_header h = true -> blocks (g1 ++ h :: g2) = blocks g1 ++ blocks (h :: g2).
Proof.
  intro H. induction g1 as [|x g1 IH]; [reflexivity|].
  cbn [app blocks]. rewrite IH, body_of_app_header by assumption.
  now destruct (is_header x).
Qed.

Lemma last_saved_app name a : forall b,
  last_saved name (a ++ b) =
  match last_saved name b with
  | Some t => Some t
  | None => last_saved name a
  end.
Proof.
  induction a as [|x a IH]; intro b; simpl.
  - now destruct (last_saved name b).
  - rewrite IH. now destruct (last_saved name b).
Qed.

(** X4. The pass composes at a header row: in the tables of a grid cut
    before a header-candidate row, a name is found with the rows it has in
    the tables of the lower part when the lower part has it, and with the
    rows it has in the tables of the upper part otherwise. *)
Theorem pass_composes_at_header g1 h g2 name :
  is_header h = true ->
  Dict.get name (scan_tables (g1 ++ h :: g2)) =
  match Dict.get name (scan_tables (h :: g2)) with
  | Some t => Some t
  | None => Dict.get name (scan_tables g1)
  end.
Proof.
  intro H. rewrite !pass_lookup_last_block, blocks_app_header by assumption.
  apply last_saved_app.
Qed.

Lemma set_length (V : Type) (k : str) (v : V) (d : Dict.t V) :
  (List.length (Dict.set k v d) <= S (List.length d))%nat.
Proof.
  induction d as [|[k0 v0] d IH]; simpl; [lia|].
  destruct (PyStr.eqb k k0); simpl; lia.
Qed.

Lemma blocks_length bs : forall T,
  (List.length (fold_left commit_block bs T)
   <= List.length T + List.length bs)%nat.
Proof.
  induction bs as [|b bs IH]; intro T; simpl; [lia|].
  specialize (IH (commit_block T b)).
  assert (List.length (commit_block T b) <= S (List.length T))%nat; [|lia].
  unfold commit_block. destruct (dropna_all (snd b)); [lia | apply set_length].
Qed.

Lemma blocks_count df : List.length (blocks df) = header_count df.
Proof.
  unfold header_count. induction df as [|r df IH]; [reflexivity|].
  simpl. destruct (is_header r); simpl; now rewrite IH.
Qed.

(** X5. The pass saves at most one table per header-candidate row, and the
    segmenter returns at most as many tables as [iterrows] yields
    header-candidate rows, or one table when it yields none. *)
Theorem table_count_bounded df sheet_name :
  (forall rows, List.length (scan_tables rows) <= header_count rows)%nat
  /\ (List.length (_extract_tables_from_sheet df sheet_name)
      <= Nat.max 1 (header_count (iterrows df)))%nat.
Proof.
  assert (A : forall rows,
             (List.length (scan_tables rows) <= header_count rows)%nat).
  { intro rows. rewrite scan_tables_blocks, <- blocks_count.
    unfold tables_of_blocks. apply (blocks_length (blocks rows) []). }
  split; [exact A|].
  specialize (A (iterrows df)).
  unfold _extract_tables_from_sheet.
  destruct (scan_tables (iterrows df)) as [|kv T] eqn:E.
  - destruct (df_empty (dropna_all df)); cbn [List.length Dict.set]; lia.
  - lia.
Qed.

Lemma keys_set_eq (V : Type) (k : str) (v : V) (d : Dict.t V) :
  Dict.keys (Dict.set k v d) =
  if Dict.mem k d then Dict.keys d else Dict.keys d ++ [k].
Proof.
  unfold Dict.mem, Dict.keys. induction d as [|[k0 v0] d IH]; [reflexivity|].
  simpl. destruct (PyStr.eqb k k0) eqn:E; [reflexivity|].
  simpl. rewrite IH. now destruct (Dict.get k d).
Qed.

Lemma mem_In_keys (V : Type) (k : str) (d : Dict.t V) :
  Dict.mem k d = true <-> In k (Dict.keys d).
Proof.
  unfold Dict.mem. rewrite get_In_keys.
  destruct (Dict.get k d); split; eauto; try discriminate.
  intros [v H]. discriminate.
Qed.

Lemma NoDup_snoc (l : list str) (k : str) :
  NoDup l -> ~ In k l -> NoDup (l ++ [k]).
Proof.
  induction l as [|x l IH]; intros N H; simpl.
  - constructor; [intros [] | constructor].
  - inversion N; subst. constructor.
    + intro I. apply in_app_or in I as [I|[I|[]]]; [auto|].
      apply H. now left.
    + apply IH; [assumption|]. intro I. apply H. now right.
Qed.

Lemma set_NoDup (V : Type) (k : str) (v : V) (d : Dict.t V) :
  NoDup (Dict.keys d) -> NoDup (Dict.keys (Dict.set k v d)).
Proof.
  intro N. rewrite keys_set_eq. destruct (Dict.mem k d) eqn:M; [assumption|].
  apply NoDup_snoc; [assumption|]. intro I. apply mem_In_keys in I. congruence.
Qed.

Lemma update_NoDup (V : Type) (other : Dict.t V) : forall d,
  NoDup (Dict.keys d) -> NoDup (Dict.keys (Dict.update d other)).
Proof.
  unfold Dict.update. induction other as [|[k v] other IH]; intros d N; [exact N|].
  simpl. apply IH. now apply set_NoDup.
Qed.

Lemma blocks_NoDup bs : forall T,
  NoDup (Dict.keys T) -> NoDup (Dict.keys (fold_left commit_block bs T)).
Proof.
  induction bs as [|b bs IH]; intros T N; [exact N|].
  simpl. apply IH. unfold commit_block.
  destruct (dropna_all (snd b)); [assumption | now apply set_NoDup].
Qed.

Lemma extract_NoDup df sheet_name :
  NoDup (Dict.keys (_extract_tables_from_sheet df sheet_name)).
Proof.
  assert (A : NoDup (Dict.keys (scan_tables (iterrows df)))).
  { rewrite scan_tables_blocks. apply blocks_NoDup. constructor. }
  unfold _extract_tables_from_sheet.
  destruct (scan_tables (iterrows df)) as [|kv T] eqn:E; [|exact A].
  destruct (df_empty (dropna_all df)); [constructor|].
  simpl. constructor; [intros [] | constructor].
Qed.

Lemma identify_NoDup sheets : forall T,
  NoDup (Dict.keys T) -> NoDup (Dict.keys (_identify_tables sheets T)).
Proof.
  unfold _identify_tables.
  induction sheets as [|sheet sheets IH]; intros T N; [exact N|].
  simpl. apply IH. now apply update_NoDup.
Qed.

(** X6. The table names that the processor lists after a load are pairwise
    distinct, whatever the source file was. *)
Theorem listed_names_distinct file :
  match fst (initialize_processor file) with
  | Some p => NoDup (get_table_names (tables p))
  | None => True
  end.
Proof.
  destruct file as [|msg|sheets]; simpl; try constructor.
  apply identify_NoDup. constructor.
Qed.

Lemma update_lookup (V : Type) (other : Dict.t V) : forall d k,
  NoDup (Dict.keys other) ->
  Dict.get k (Dict.update d other) =
  match Dict.get k other with
  | Some v => Some v
  | None => Dict.get k d
  end.
Proof.
  unfold Dict.update.
  induction other as [|[k0 v0] other IH]; intros d k N; [reflexivity|].
  cbn [fold_left fst snd]. unfold Dict.keys in N. simpl in N.
  inversion N as [|? ? Hnot N']; subst.
  rewrite IH by assumption. simpl.
  destruct (PyStr.eqb k k0) eqn:E.
  - apply eqb_true_iff in E. subst k0.
    destruct (Dict.get k other) eqn:G.
    + exfalso. apply Hnot. apply (get_In_keys _ k other). eauto.
    + apply get_set_same.
  - destruct (Dict.get k other); [reflexivity|].
    apply get_set_other. now apply eqb_false_iff.
Qed.

(** X7. Tables of a later sheet replace tables of the same name from the
    sheets before it: after one more sheet a name is found with the table
    of that sheet when the sheet has one of that name, and as before
    otherwise. *)
Theorem later_sheet_wins sheets sheet_name df T name :
  Dict.get name (_identify_tables (sheets ++ [(sheet_name, df)]) T) =
  match Dict.get name (_extract_tables_from_sheet df sheet_name) with
  | Some t => Some t
  | None => Dict.get name (_identify_tables sheets T)
  end.
Proof.
  unfold _identify_tables. rewrite fold_left_app. cbn [fold_left fst snd].
  apply update_lookup, extract_NoDup.
Qed.

(* ------------------------------------------------------------------ *)
(** * Further properties of trimming *)

Lemma dropWhile_idem p s : dropWhile p (dropWhile p s) = dropWhile p s.
Proof.
  induction s as [|c s IH]; simpl; auto.
  destruct (p c) eqn:E; auto. simpl. now rewrite E.
Qed.

Lemma dropWhile_suffix p s :
  exists t, s = t ++ dropWhile p s /\ forallb p t = true.
Proof.
  induction s as [|c s (t & E & F)]; simpl.
  - exists []. auto.
  - destruct (p c) eqn:C.
    + exists (c :: t). simpl. rewrite C, F. split; [now f_equal | reflexivity].
    + exists []. auto.
Qed.

Lemma dropWhile_fixed p s :
  dropWhile p s = s <-> s = [] \/ exists c s', s = c :: s' /\ p c = false.
Proof.
  split.
  - destruct s as [|c s]; [now left|]. simpl. destruct (p c) eqn:C.
    + intro H. exfalso.
      destruct (dropWhile_suffix p s) as (t & E & _).
      assert (L : List.length (dropWhile p s) = S (List.length s)) by now rewrite H.
      rewrite E in L at 2. rewrite length_app in L. lia.
    + right. eauto.
  - intros [->|(c & s' & -> & C)]; simpl; [reflexivity | now rewrite C].
Qed.

Lemma rstrip_prefix x : exists t, x = rstrip x ++ t.
Proof.
  unfold rstrip. destruct (dropWhile_suffix isspace (rev x)) as (t & E & _).
  exists (rev t). rewrite <- rev_app_distr, <- E. now rewrite rev_involutive.
Qed.

(** Trimming a trimmed text changes nothing. *)
Lemma strip_idem s : strip (strip s) = strip s.
Proof.
  unfold strip. set (x := lstrip s).
  assert (L : lstrip (rstrip x) = rstrip x).
  { unfold lstrip. apply dropWhile_fixed.
    destruct (rstrip x) as [|c y] eqn:R; [now left|].
    right. exists c, y. split; [reflexivity|].
    destruct (rstrip_prefix x) as (t & E). rewrite R in E.
    assert (F : dropWhile isspace x = x) by (unfold x, lstrip; apply dropWhile_idem).
    apply dropWhile_fixed in F as [F|(c' & s' & F & C)].
    - rewrite F in E. discriminate.
    - rewrite F in E. simpl in E. inversion E. now subst. }
  rewrite L. unfold rstrip. rewrite rev_involutive, dropWhile_idem. reflexivity.
Qed.

(** X10. The row labels that the listing returns are trimmed and not
    empty: each one is left unchanged by [strip]. *)
Theorem row_labels_trimmed (tables : Dict.t DataFrame) name row_names label :
  get_table_row_names tables name = Ok row_names ->
  In label row_names ->
  strip label = label /\ label <> [].
Proof.
  intros H Hl.
  destruct (Dict.get name tables) as [df|] eqn:G;
    [|unfold get_table_row_names in H; rewrite G in H; discriminate].
  rewrite (row_names_labels _ _ _ G) in H. injection H as <-.
  apply labels_In in Hl as (row & _ & [_ <-] & Hne).
  split; [apply strip_idem | assumption].
Qed.

(** X11. The names of the tables of the pass are trimmed: each one is left
    unchanged by [strip]. *)
Theorem pass_names_trimmed df name :
  In name (get_table_names (scan_tables df)) -> strip name = name.
Proof.
  intro H. apply get_In_keys in H as [t H].
  apply scan_tables_get in H as (_ & h & _ & _ & _ & -> & _).
  apply strip_idem.
Qed.

(** X12. A row name with white space at either end is never found: the
    sum then returns no number, whatever the registry holds. *)
Theorem untrimmed_row_name_not_found (tables : Dict.t DataFrame) name row_name :
  strip row_name <> row_name ->
  forall v, calculate_row_sum tables name row_name <> Ok v.
Proof.
  intros U v. unfold calculate_row_sum.
  destruct (Dict.get name tables) as [df|]; [|discriminate].
  destruct (rows_truthy df && (width df =? 0)%nat); [discriminate|].
  rewrite find_row_none; [discriminate|].
  intros r _ [_ L]. apply U. rewrite <- L. apply strip_idem.
Qed.

(* ------------------------------------------------------------------ *)
(** * Further properties of the resolver and of the handlers *)

(** X13. The sum fails with the table-not-found error for a name that the
    registry does not hold, and with the row-not-found error, whose message
    is a different one, for a table with at least one column (or without
    rows) none of whose rows, as [iterrows] yields them, carries the label;
    the handler answers both with status 404 and the message of the error. *)
Theorem sum_row_not_found (registry : Dict.t DataFrame) name row_name :
  (Dict.get name registry = None ->
   calculate_row_sum registry name row_name = Raise (table_not_found name))
  /\ (forall df,
        Dict.get name registry = Some df ->
        df = [] \/ df_empty df = false ->
        (forall r, In r (iterrows df) -> ~ has_label row_name r) ->
        calculate_row_sum registry name row_name =
        Raise (row_not_found row_name name))
  /\ table_not_found name <> row_not_found row_name name
  /\ (forall p,
        Dict.get name (tables p) = None ->
        row_sum (Some p) name row_name =
        HTTPException 404 (lit "Table '" ++ name ++ lit "' not found"))
  /\ (forall p df,
        Dict.get name (tables p) = Some df ->
        df = [] \/ df_empty df = false ->
        (forall r, In r (iterrows df) -> ~ has_label row_name r) ->
        row_sum (Some p) name row_name =
        HTTPException 404 (lit "Row '" ++ row_name
                           ++ lit "' not found in table '" ++ name ++ lit "'")).
Proof.
  assert (R : forall (d : Dict.t DataFrame) df,
             Dict.get name d = Some df ->
             df = [] \/ df_empty df = false ->
             (forall r, In r (iterrows df) -> ~ has_label row_name r) ->
             calculate_row_sum d name row_name =
             Raise (row_not_found row_name name)).
  { intros d df H E N. unfold calculate_row_sum. rewrite H.
    assert (W : rows_truthy df && (width df =? 0)%nat = false).
    { destruct E as [->|E]; [reflexivity|].
      destruct df; [reflexivity | exact E]. }
    now rewrite W, find_row_none. }
  split.
  { intro H. unfold calculate_row_sum. now rewrite H. }
  split; [exact (R registry)|].
  split; [discriminate|].
  split.
  - intros p H. unfold row_sum, calculate_row_sum. now rewrite H.
  - intros p df H E N. unfold row_sum. now rewrite (R _ df H E N).
Qed.

Lemma identify_items sheets : forall T name t,
  In (name, t) (_identify_tables sheets T) ->
  In (name, t) T \/
  exists sheet df, In (sheet, df) sheets
                   /\ In (name, t) (_extract_tables_from_sheet df sheet).
Proof.
  unfold _identify_tables.
  induction sheets as [|[sheet df] sheets IH]; intros T name t H; [now left|].
  cbn [fold_left fst snd] in H. apply IH in H as [H|(s & d & Hin & Hk)].
  - apply update_items in H as [H|H]; [now left|].
    right. exists sheet, df. split; [now left | assumption].
  - right. exists s, d. split; [now right | assumption].
Qed.

(** Every table of a loaded registry has a row and a column. *)
Lemma loaded_tables_have_rows file p name t :
  fst (initialize_processor file) = Some p ->
  Dict.get name (tables p) = Some t ->
  t <> [] /\ df_empty t = false.
Proof.
  intros I G. apply get_In in G.
  destruct file as [|msg|sheets]; simpl in I; injection I as <-;
    simpl in G; try contradiction.
  apply identify_items in G as [[]|(s & d & _ & G)].
  apply extract_items in G as [Hne Hrows]. split; [assumption|].
  apply rows_present_not_empty; [assumption|]. intros row Hr. now apply Hrows.
Qed.

(** X14. After [initialize_processor], whatever the source file, the table
    details are answered with status 200 or 404, and the row sum with status
    200 or 404 unless the sum is an infinity or NaN, which cannot be rendered
    and gives status 500: no table of a loaded registry lacks a column, so no
    query fails on the frame itself. *)
Theorem loaded_queries_status file name row_name :
  match fst (initialize_processor file) with
  | Some p =>
      (status_of (get_table_details (Some p) name) = 200%Z
       \/ status_of (get_table_details (Some p) name) = 404%Z)
      /\ (status_of (row_sum (Some p) name row_name) = 200%Z
          \/ status_of (row_sum (Some p) name row_name) = 404%Z
          \/ exists sum_value,
               calculate_row_sum (tables p) name row_name = Ok sum_value
               /\ json_compliant sum_value = false
               /\ row_sum (Some p) name row_name = InternalServerError)
  | None => True
  end.
Proof.
  destruct (fst (initialize_processor file)) as [p|] eqn:I; [|exact Logic.I].
  split.
  - unfold get_table_details, get_table_row_names.
    destruct (Dict.get name (tables p)); [|now right].
    left. now destruct (df_empty d).
  - unfold row_sum, calculate_row_sum.
    destruct (Dict.get name (tables p)) as [t|] eqn:G; [|right; now left].
    destruct (loaded_tables_have_rows _ _ _ _ I G) as [Hne E].
    destruct t as [|r t]; [congruence|].
    unfold df_empty in E. cbn [rows_truthy andb]. rewrite E.
    destruct (find_row row_name (iterrows (r :: t))); [|right; now left].
    destruct (json_compliant (sum_cells (rest_cells r0))) eqn:J;
      [now left|].
    right. right. eexists. repeat split. exact J.
Qed.

(** X15. The names that the listing of tables returns are exactly the
    names for which the table details are answered with status 200; any
    other name is answered with status 404. *)
Theorem details_ok_iff_listed p name names :
  list_tables (Some p) = Http200 names ->
  (In name names <-> is_200 (get_table_details (Some p) name) = true)
  /\ (~ In name names -> status_of (get_table_details (Some p) name) = 404%Z).
Proof.
  unfold list_tables. intro H. injection H as <-.
  unfold get_table_names, get_table_details, get_table_row_names.
  rewrite get_In_keys.
  destruct (Dict.get name (tables p)) as [t|] eqn:G.
  - split.
    + split; [intros _; now destruct (df_empty t) | eauto].
    + intro N. exfalso. apply N. eauto.
  - split.
    + split; [intros [v Hv]; discriminate | discriminate].
    + reflexivity.
Qed.

(* ------------------------------------------------------------------ *)
(** * Further properties of the coercion and of the sum *)

Lemma numeric_chars_app a b :
  numeric_chars (a ++ b) = numeric_chars a ++ numeric_chars b.
Proof. unfold numeric_chars. apply filter_app. Qed.

(** X17. A character that is not a digit, a point or a minus sign has no
    effect on the coercion of a text, wherever it stands: currency signs,
    separators, letters and spaces are ignored. *)
Theorem coercion_ignores_other_characters a c b :
  non_numeric c = true ->
  _extract_numeric_value (CStr (a ++ c :: b)) =
  _extract_numeric_value (CStr (a ++ b)).
Proof.
  intro H. simpl. rewrite !re_sub_is_filter, !numeric_chars_app.
  unfold numeric_chars at 2. simpl. unfold non_numeric in H.
  apply negb_true_iff in H. rewrite H. reflexivity.
Qed.

Lemma round_aux_sign s m e l :
  negative (binary_round_aux prec emax s m e l) = true -> s = true.
Proof.
  unfold binary_round_aux.
  destruct (shr_fexp prec emax m e l) as [mrs e'].
  destruct (shr_fexp prec emax _ e' loc_Exact) as [mrs' e''].
  destruct (shr_m mrs'); [now simpl | | simpl; discriminate].
  destruct (Z.leb e'' (Z.sub emax prec)); now simpl.
Qed.

Lemma ratio_sign n d : negative (float_of_ratio false n d) = false.
Proof.
  destruct n as [|m|m]; try reflexivity.
  unfold float_of_ratio, SFdiv.
  destruct (SFdiv_core_binary prec emax (Zpos m) 0 (Zpos d) 0) as [[mz ez] lz].
  destruct (negative (binary_round_aux prec emax (xorb false false) mz ez lz)) eqn:E;
    [|reflexivity].
  apply round_aux_sign in E. discriminate.
Qed.

Lemma unsigned_float_sign body f :
  unsigned_float false body = Some f -> negative f = false.
Proof.
  unfold unsigned_float. destruct (span_digits body) as [ip rest].
  destruct (match rest with
            | [] => Some []
            | "."%char :: r =>
                let (fp, rest') := span_digits r in
                match rest' with [] => Some fp | _ => None end
            | _ => None
            end) as [fp|]; [|discriminate].
  destruct (ip ++ fp); [discriminate|].
  intro H. injection H as <-. apply ratio_sign.
Qed.

(** X18. A text without a minus sign never coerces to a negative number:
    a figure written in parentheses or with a trailing "CR" reads as a
    positive amount. *)
Theorem no_minus_no_negative s f :
  ~ In "-"%char s ->
  _extract_numeric_value (CStr s) = Some f ->
  negative f = false.
Proof.
  intros N H. simpl in H. rewrite re_sub_is_filter in H.
  destruct (truthy (numeric_chars s)); [|discriminate].
  rewrite float_of_str_sign in H.
  destruct (numeric_chars s) as [|c r] eqn:E;
    [now apply unsigned_float_sign in H|].
  destruct (Ascii.eqb c "-"%char) eqn:C; [|now apply unsigned_float_sign in H].
  apply Ascii.eqb_eq in C. subst c. exfalso. apply N.
  assert (I : In "-"%char (numeric_chars s)) by (rewrite E; now left).
  unfold numeric_chars in I. now apply filter_In in I.
Qed.

Lemma unsigned_float_shape neg body f :
  unsigned_float neg body = Some f ->
  exists ip fp (point : bool),
    body = ip ++ (if point then ["."%char] else []) ++ fp
    /\ forallb isdigit ip = true /\ forallb isdigit fp = true
    /\ ip ++ fp <> [].
Proof.
  unfold unsigned_float. destruct (span_digits body) as [ip rest] eqn:S1.
  apply span_digits_spec in S1 as [-> Fi].
  destruct rest as [|c r].
  - destruct (ip ++ []) eqn:E; [discriminate|]. intros _.
    exists ip, [], false. simpl. rewrite E. repeat split; auto. discriminate.
  - destruct (ascii_dec c "."%char) as [->|Nc].
    + destruct (span_digits r) as [fp rest'] eqn:S2.
      apply span_digits_spec in S2 as [-> Ff].
      destruct rest'; [|discriminate].
      destruct (ip ++ fp) eqn:E; [discriminate|]. intros _.
      exists ip, fp, true. rewrite app_nil_r, E. repeat split; auto. discriminate.
    + intro H. exfalso.
      destruct c as [[] [] [] [] [] [] [] []]; try discriminate H.
      now apply Nc.
Qed.

(** X19. A text coerces only when what is left of it after the cleaning is
    an optional leading minus sign, digits, at most one point and digits,
    with at least one digit: a minus sign after the first kept character
    (a range, a date, a trailing sign) or a second point makes the text
    non-coercible. *)
Theorem coercible_text_shape s f :
  _extract_numeric_value (CStr s) = Some f ->
  (exists (neg : bool) ip fp (point : bool),
      numeric_chars s =
        (if neg then ["-"%char] else []) ++ ip
        ++ (if point then ["."%char] else []) ++ fp
      /\ forallb isdigit ip = true /\ forallb isdigit fp = true
      /\ ip ++ fp <> [])
  /\ ~ In "-"%char (tl (numeric_chars s)).
Proof.
  intro H. simpl in H. rewrite re_sub_is_filter in H.
  destruct (truthy (numeric_chars s)); [|discriminate].
  rewrite float_of_str_sign in H.
  assert (D : forall ip fp (point : bool),
             forallb isdigit ip = true -> forallb isdigit fp = true ->
             ~ In "-"%char (ip ++ (if point then ["."%char] else []) ++ fp)).
  { intros ip fp point Fi Ff I. rewrite forallb_forall in Fi, Ff.
    apply in_app_or in I as [I|I]; [apply Fi in I; discriminate|].
    apply in_app_or in I as [I|I]; [|apply Ff in I; discriminate].
    destruct point; [destruct I as [I|[]]; discriminate | destruct I]. }
  destruct (numeric_chars s) as [|c r] eqn:E.
  - apply unsigned_float_shape in H as (ip & fp & point & B & Fi & Ff & Ne).
    split; [|intros []]. exists false, ip, fp, point. auto.
  - destruct (Ascii.eqb c "-"%char) eqn:C.
    + apply Ascii.eqb_eq in C. subst c.
      apply unsigned_float_shape in H as (ip & fp & point & -> & Fi & Ff & Ne).
      split; [|simpl; now apply D]. exists true, ip, fp, point. auto.
    + apply unsigned_float_shape in H as (ip & fp & point & B & Fi & Ff & Ne).
      split; [exists false, ip, fp, point; auto|].
      intro I. apply (D ip fp point Fi Ff). rewrite <- B. now right.
Qed.

Lemma fold_add_float vs : forall a,
  fold_left add_float vs (PyFloat a) = PyFloat (fold_left fadd vs a).
Proof. induction vs as [|v vs IH]; intro a; simpl; [reflexivity | apply IH]. Qed.

Lemma sum_as_float vs :
  to_float (PyNum.sum vs) = fold_left fadd vs fzero
  /\ (vs <> [] -> PyNum.sum vs = PyFloat (fold_left fadd vs fzero)).
Proof.
  destruct vs as [|v vs]; [split; [reflexivity | congruence]|].
  assert (E : PyNum.sum (v :: vs) = PyFloat (fold_left fadd (v :: vs) fzero)).
  { unfold PyNum.sum. cbn [fold_left]. unfold add_float at 2.
    now rewrite fold_add_float. }
  rewrite E. auto.
Qed.

Lemma fadd_zero_l v : v <> S754_zero true -> fadd fzero v = v.
Proof.
  intro H. destruct v as [[|]| | |]; try reflexivity. congruence.
Qed.

(** X20. The sum of the cells is the left-to-right float sum, from 0.0, of
    the values that coerce; it is a float as soon as one cell coerces, and
    with exactly one coercing cell, other than a negative zero, it is the
    value of that cell. *)
Theorem sum_cells_is_float_sum cells :
  to_float (sum_cells cells) = fold_left fadd (coerced cells) fzero
  /\ (coerced cells <> [] ->
      sum_cells cells = PyFloat (fold_left fadd (coerced cells) fzero))
  /\ (forall v, coerced cells = [v] -> v <> S754_zero true ->
                sum_cells cells = PyFloat v).
Proof.
  rewrite sum_cells_coerced.
  destruct (sum_as_float (coerced cells)) as [A B].
  split; [exact A|]. split; [exact B|].
  intros v E N. rewrite B by (rewrite E; discriminate).
  rewrite E. cbn [fold_left]. now rewrite fadd_zero_l.
Qed.

Lemma keys_update_mono (V : Type) (other : Dict.t V) : forall d k,
  In k (Dict.keys d) \/ In k (Dict.keys other) ->
  In k (Dict.keys (Dict.update d other)).
Proof.
  unfold Dict.update.
  induction other as [|[k0 v0] other IH]; intros d k H.
  - destruct H as [H|[]]. exact H.
  - cbn [fold_left fst snd]. apply IH.
    destruct H as [H|[H|H]].
    + left. apply keys_set. now right.
    + left. apply keys_set. left. now symmetry.
    + now right.
Qed.

Lemma identify_keys_mono sheets : forall T k,
  In k (Dict.keys T) -> In k (Dict.keys (_identify_tables sheets T)).
Proof.
  unfold _identify_tables.
  induction sheets as [|sheet sheets IH]; intros T k H; [exact H|].
  cbn [fold_left]. apply IH. apply keys_update_mono. now left.
Qed.

(** X21. No table name is lost while the sheets are processed: a name that
    the segmenter returns for a sheet of the workbook is a name of the
    registry, and so is every name the registry held before. *)
Theorem identified_names_kept sheets T sheet_name df name :
  In (sheet_name, df) sheets ->
  In name (Dict.keys T)
  \/ In name (Dict.keys (_extract_tables_from_sheet df sheet_name)) ->
  In name (get_table_names (_identify_tables sheets T)).
Proof.
  unfold get_table_names. revert T.
  induction sheets as [|[s d] sheets IH]; intros T Hin H; [destruct Hin|].
  unfold _identify_tables. cbn [fold_left fst snd].
  fold (_identify_tables sheets
          (Dict.update T (_extract_tables_from_sheet d s))).
  destruct H as [H|H].
  - apply identify_keys_mono, keys_update_mono. now left.
  - destruct Hin as [E|Hin].
    + inversion E; subst. apply identify_keys_mono, keys_update_mono. now right.
    + apply IH; auto.
Qed.

End Engine.

(* ------------------------------------------------------------------ *)
(** * The statements at concrete inputs *)

Ltac in_cases H :=
  simpl in H; repeat (destruct H as [<-|H]; [reflexivity|]); contradiction.

Lemma is_header_candidate_cases_witness :
  _is_potential_table_header (lit "   ") = false
  /\ _is_potential_table_header (lit "Notes on Revenue recognition for the year ahead") = true
  /\ _is_potential_table_header (lit "Q1 Q2 Q3 Q4 Q5 Q6") =
     (List.length (split (lit "Q1 Q2 Q3 Q4 Q5 Q6")) <=? 5)%nat
     && (5 <? List.length (lit "Q1 Q2 Q3 Q4 Q5 Q6"))%nat.
Proof.
  destruct is_header_candidate_cases as (_ & B & K & S & _).
  split; [apply B; right; reflexivity|].
  split.
  - apply (K _ (lit "revenue")); [simpl; tauto | reflexivity].
  - apply S; [reflexivity|]. intros keyword H. in_cases H.
Defined.

Lemma segmenter_single_pass_witness :
  let note := [CStr (lit "note")] in
  let revenue := [CStr (lit "Revenue")] in
  let costs := [CStr (lit "Operating Costs")] in
  let a := [CStr (lit "a"); CInt 4] in
  let b := [CStr (lit "b"); CInt 1] in
  let st := {| tables_so_far := []; current_table_name := Some (lit "Revenue");
               current_table_data := [a] |} in
  scan_row no_float_str st costs =
    {| tables_so_far := save_table st;
       current_table_name := Some (lit "Operating Costs");
       current_table_data := [] |}
  /\ save_table st = [(lit "Revenue", pd_DataFrame [a])]
  /\ save_table {| tables_so_far := [(lit "Revenue", [a])];
                   current_table_name := Some (lit "Revenue");
                   current_table_data := [] |} = [(lit "Revenue", [a])]
  /\ scan_row no_float_str st b =
       {| tables_so_far := []; current_table_name := Some (lit "Revenue");
          current_table_data := [a; b] |}
  /\ scan_tables no_float_str ([note] ++ [revenue; a]) =
     scan_tables no_float_str [revenue; a]
  /\ scan_tables no_float_str ([revenue] ++ [CNone] :: [a]) =
     scan_tables no_float_str ([revenue] ++ [a])
  /\ (exists pre h post,
        [note; revenue; a; [CNone]; costs; b] = pre ++ h :: post
        /\ is_header no_float_str h = true
        /\ lit "Revenue" = strip (row_text no_float_str h)
        /\ [a] = pd_DataFrame (dropna_all (body_of no_float_str post))
        /\ dropna_all (body_of no_float_str post) <> [])
  /\ _extract_tables_from_sheet no_float_str
       [note; revenue; a; [CNone]; costs; b] (lit "Sheet1") =
     scan_tables no_float_str (iterrows [note; revenue; a; [CNone]; costs; b])
  /\ _extract_tables_from_sheet no_float_str [note; revenue] (lit "Sheet1") =
     [(lit "Sheet1_data", [note; revenue])]
  /\ all_na a = false.
Proof.
  intros note revenue costs a b st.
  destruct (segmenter_single_pass no_float_str)
    as (_ & P1 & P2 & P3 & P4 & P5 & P6 & P7 & _ & P9 & P10 & P11).
  split; [apply (P1 st costs); reflexivity|].
  split; [apply (P2 [] (lit "Revenue") [a]); discriminate|].
  split; [apply P3; right; reflexivity|].
  split; [apply (P4 st b); reflexivity|].
  split; [apply P5; intros r H; in_cases H|].
  split; [apply P6; reflexivity|].
  split; [apply (P7 _ (lit "Revenue")); reflexivity|].
  split; [apply P9; discriminate|].
  split; [apply P10; [reflexivity | discriminate]|].
  apply (P11 [note; revenue; a] (lit "Sheet1") (lit "Revenue") [a] a);
    [reflexivity | now left].
Defined.

(** C1 as it is stated fails on a grid whose only header has no row after
    it: the row before the first header, and the header row itself, are the
    rows of the fallback table. *)
Lemma segmenter_fallback_keeps_leading_rows :
  is_header no_float_str [CStr (lit "note")] = false
  /\ is_header no_float_str [CStr (lit "Revenue")] = true
  /\ Dict.get (lit "Sheet1_data")
       (_extract_tables_from_sheet no_float_str
          [[CStr (lit "note")]; [CStr (lit "Revenue")]] (lit "Sheet1")) =
     Some [[CStr (lit "note")]; [CStr (lit "Revenue")]]
  /\ In [CStr (lit "note")] [[CStr (lit "note")]; [CStr (lit "Revenue")]].
Proof. repeat split; try reflexivity. now left. Qed.

Lemma fallback_table_witness :
  (forall r, In r (iterrows [[CStr (lit "abc"); CInt 1]; [CNone; CNone];
                             [CStr (lit "x")]]) ->
             is_header no_float_str r = false)
  /\ _extract_tables_from_sheet no_float_str
       [[CStr (lit "abc"); CInt 1]; [CNone; CNone]; [CStr (lit "x")]]
       (lit "Sheet1") =
     [(lit "Sheet1_data", [[CStr (lit "abc"); CInt 1]; [CStr (lit "x")]])].
Proof.
  assert (H : forall r,
             In r (iterrows [[CStr (lit "abc"); CInt 1]; [CNone; CNone];
                             [CStr (lit "x")]]) ->
             is_header no_float_str r = false)
    by (intros r H; in_cases H).
  split; [exact H|].
  exact (fallback_table no_float_str _ (lit "Sheet1") H).
Defined.

(** C5 as it is stated fails on the grid of an empty sheet and on a grid
    whose only row is entirely absent: neither has a header-candidate row
    and the segmenter returns no table for them. *)
Lemma fallback_without_rows :
  forallb (fun r => negb (is_header no_float_str r))
          (iterrows [[CNone; CNone]]) = true
  /\ _extract_tables_from_sheet no_float_str [[CNone; CNone]] (lit "Sheet1") = []
  /\ _extract_tables_from_sheet no_float_str [] (lit "Sheet1") = []
  /\ List.length
       (_extract_tables_from_sheet no_float_str [[CNone; CNone]] (lit "Sheet1"))
     <> 1%nat.
Proof. repeat split; try reflexivity. discriminate. Qed.

Lemma list_row_labels_spec_witness :
  let df := [[CStr (lit " Sales "); CInt 1]; [CNone; CInt 2];
             [CStr (lit "  "); CInt 3]; [CInt 7; CInt 4]] in
  get_table_row_names no_float_str [(lit "T", df)] (lit "T") =
    Ok [lit "Sales"; lit "7"]
  /\ (exists df', Dict.get (lit "T") [(lit "T", df)] = Some df'
                  /\ get_table_row_names no_float_str [(lit "T", df)] (lit "T") =
                     Ok (labels no_float_str df'))
  /\ get_table_row_names no_float_str [(lit "T", df)] (lit "U") =
     Raise (table_not_found (lit "U"))
  /\ get_table_details no_float_str
       (Some {| file_path := EXCEL_FILE_PATH; sheets_data := [];
                tables := [(lit "T", df)] |}) (lit "U") =
     HTTPException 404 (lit "Table 'U' not found").
Proof.
  intro df.
  destruct (list_row_labels_spec no_float_str) as (P1 & P2 & P3 & P4).
  split; [apply (P1 [(lit "T", df)] (lit "T") df); reflexivity|].
  split; [apply P2; now left|].
  split; [apply P3; intros [H|[]]; discriminate|].
  apply (P4 {| file_path := EXCEL_FILE_PATH; sheets_data := [];
               tables := [(lit "T", df)] |} (lit "U")).
  intros [H|[]]; discriminate.
Defined.


Lemma sum_row_nothing_coerced_witness :
  calculate_row_sum no_float_str
    [(lit "Costs", [[CStr (lit "Rent"); CInt 5; CNone];
                    [CStr (lit "Total"); CStr (lit "abc"); CNone]])]
    (lit "Costs") (lit "Total") = Ok (PyInt 0)
  /\ calculate_row_sum no_float_str
       [(lit "Costs", [[CStr (lit "Rent"); CInt 5; CNone];
                       [CStr (lit "Total"); CStr (lit "abc"); CNone]])]
       (lit "Costs") (lit "Total") <> Ok (PyFloat (S754_zero false))
  /\ to_float (PyInt 0) = S754_zero false.
Proof.
  apply (sum_row_nothing_coerced no_float_str _ (lit "Costs") (lit "Total")
           [[CStr (lit "Rent"); CInt 5; CNone];
            [CStr (lit "Total"); CStr (lit "abc"); CNone]]
           [[CStr (lit "Rent"); CInt 5; CNone]]
           (CStr (lit "Total")) [CStr (lit "abc"); CNone] []);
    try reflexivity.
  - intros r H [_ L]. destruct H as [<-|[]]. discriminate L.
  - split; reflexivity.
Defined.

Lemma registry_names_non_empty_witness :
  let df := [[CStr (lit "Revenue")]; [CStr (lit "a"); CInt 4]] in
  (strip (lit " Revenue ") <> [] /\ forallb isspace (lit " Revenue ") = false)
  /\ lit "Revenue" <> []
  /\ lit "Sheet1_data" <> []
  /\ lit "Revenue" <> [].
Proof.
  intro df.
  destruct (registry_names_non_empty no_float_str) as (P1 & P2 & P3 & P4).
  split; [apply P1; reflexivity|].
  split; [apply (P2 df (lit "Sheet1")); now left|].
  split.
  - apply (P3 [(lit "Sheet1", [[CStr (lit "x")]])]). now left.
  - apply (P4 (Workbook [(lit "Sheet1", df)])). now left.
Defined.

Lemma listed_label_is_found_witness :
  (exists c cells,
      find_row no_float_str (lit "Sales")
        (iterrows [[CNone; CInt 9; CNone];
                   [CStr (lit " Sales "); CInt 1; CStr (lit "2")]]) =
      Some (c :: cells)
      /\ strip (cell_str no_float_str c) = lit "Sales"
      /\ calculate_row_sum no_float_str
           [(lit "T", [[CNone; CInt 9; CNone];
                       [CStr (lit " Sales "); CInt 1; CStr (lit "2")]])]
           (lit "T") (lit "Sales") =
         Ok (PyNum.sum (coerced cells)))
  /\ calculate_row_sum no_float_str
       (_extract_tables_from_sheet no_float_str
          [[CStr (lit "Revenue"); CStr (lit "Q1")];
           [CInt 7; CFloat S754_nan]; [CInt 8; CFloat S754_nan]]
          (lit "Sheet1"))
       (lit "Revenue Q1") (lit "7") =
     Raise (row_not_found (lit "7") (lit "Revenue Q1")).
Proof.
  destruct (listed_label_is_found no_float_str) as (A & _ & _ & _ & B).
  split.
  - apply (A _ (lit "T") [lit "Sales"] (lit "Sales")
             [[CNone; CInt 9; CNone];
              [CStr (lit " Sales "); CInt 1; CStr (lit "2")]]);
      [reflexivity | discriminate | reflexivity | now left].
  - apply B; discriminate.
Defined.

Lemma coerce_cases_witness :
  In "2"%char (numeric_chars (lit "$2,000"))
  /\ (exists m e,
        _extract_numeric_value (CInt (-1000)) = Some (S754_finite true m e)
        /\ (e <= 0)%Z /\ Zpos m = (1000 * 2 ^ (- e))%Z)
  /\ _extract_numeric_value (CStr (lit "$2,000")) = Some (float_of_int 2000)
  /\ (CFloat S754_nan = CNone \/ CFloat S754_nan = CFloat S754_nan)
  /\ sum_cells ([CInt 1] ++ CFloat S754_nan :: [CInt 2]) =
     sum_cells ([CInt 1] ++ [CInt 2]).
Proof.
  destruct coerce_cases
    as (_ & X & _ & _ & _ & I & _ & D & _ & _ & _ & _ & _ & _ & _ & _ & A & _ & S & _).
  split.
  - apply I. split; [simpl; tauto | left; reflexivity].
  - split; [apply (X (-1000)%Z); simpl; lia|].
    split.
    + apply (D (lit "$2,000")); [discriminate | reflexivity | vm_compute; reflexivity].
    + split; [apply A; reflexivity | apply S; reflexivity].
Defined.

(** C4 as it is stated fails on the NaN that marks a blank cell: the cell
    is absent, and coercion returns it as a float. *)
Lemma coerce_nan_is_absent :
  isna (CFloat S754_nan) = true
  /\ _extract_numeric_value (CFloat S754_nan) = Some S754_nan
  /\ _extract_numeric_value (CFloat S754_nan) <> None.
Proof. repeat split. discriminate. Qed.

(* ------------------------------------------------------------------ *)
(** * The further properties at concrete inputs *)

Lemma extracted_tables_have_rows_witness :
  [[CStr (lit "a"); CInt 4]] <> []
  /\ (forall row, In row [[CStr (lit "a"); CInt 4]] -> all_na row = false)
  /\ df_empty [[CStr (lit "a"); CInt 4]] = false.
Proof.
  exact (extracted_tables_have_rows no_float_str
           [[CStr (lit "Revenue")]; [CStr (lit "a"); CInt 4]]
           (lit "Sheet1") (lit "Revenue") [[CStr (lit "a"); CInt 4]] eq_refl).
Defined.

Lemma no_table_iff_all_absent_witness :
  _extract_tables_from_sheet no_float_str [[CNone]; []] (lit "Sheet1") = []
  /\ (forall row, In row [[CNone; CFloat S754_nan]] -> all_na row = true).
Proof.
  split.
  - apply (no_table_iff_all_absent no_float_str). intros row H. in_cases H.
  - apply (no_table_iff_all_absent no_float_str _ (lit "Sheet1")). reflexivity.
Defined.

Lemma pass_composes_at_header_witness :
  Dict.get (lit "Revenue")
    (scan_tables no_float_str
       ([[CStr (lit "Revenue")]; [CStr (lit "a"); CInt 4]]
        ++ [CStr (lit "Operating Costs")] :: [[CStr (lit "b"); CInt 1]])) =
  match Dict.get (lit "Revenue")
          (scan_tables no_float_str
             ([CStr (lit "Operating Costs")] :: [[CStr (lit "b"); CInt 1]])) with
  | Some t => Some t
  | None =>
      Dict.get (lit "Revenue")
        (scan_tables no_float_str
           [[CStr (lit "Revenue")]; [CStr (lit "a"); CInt 4]])
  end.
Proof.
  apply (pass_composes_at_header no_float_str). reflexivity.
Defined.

Lemma row_labels_trimmed_witness :
  strip (lit "Sales") = lit "Sales" /\ lit "Sales" <> [].
Proof.
  apply (row_labels_trimmed no_float_str
           [(lit "T", [[CStr (lit " Sales "); CInt 1]])] (lit "T") [lit "Sales"]);
    [reflexivity | now left].
Defined.

Lemma pass_names_trimmed_witness :
  strip (lit "Revenue") = lit "Revenue".
Proof.
  apply (pass_names_trimmed no_float_str
           [[CStr (lit "  Revenue ")]; [CStr (lit "a"); CInt 4]]).
  now left.
Defined.

Lemma untrimmed_row_name_not_found_witness :
  calculate_row_sum no_float_str
    [(lit "T", [[CStr (lit " Sales "); CInt 1]])] (lit "T") (lit " Sales ")
  <> Ok (PyFloat (float_of_int 1)).
Proof.
  apply (untrimmed_row_name_not_found no_float_str).
  intro E. vm_compute in E. discriminate E.
Defined.

Lemma sum_row_not_found_witness :
  calculate_row_sum no_float_str
    [(lit "T", [[CStr (lit "Sales"); CInt 1]])] (lit "U") (lit "Sales") =
    Raise (table_not_found (lit "U"))
  /\ calculate_row_sum no_float_str
       [(lit "T", [[CStr (lit "Sales"); CInt 1]])] (lit "T") (lit "Rent") =
     Raise (row_not_found (lit "Rent") (lit "T"))
  /\ row_sum no_float_str
       (Some {| file_path := EXCEL_FILE_PATH; sheets_data := [];
                tables := [(lit "T", [[CStr (lit "Sales"); CInt 1]])] |})
       (lit "U") (lit "Sales") =
     HTTPException 404 (lit "Table 'U' not found")
  /\ row_sum no_float_str
       (Some {| file_path := EXCEL_FILE_PATH; sheets_data := [];
                tables := [(lit "T", [[CStr (lit "Sales"); CInt 1]])] |})
       (lit "T") (lit "Rent") =
     HTTPException 404 (lit "Row 'Rent' not found in table 'T'").
Proof.
  assert (N : forall r, In r (iterrows [[CStr (lit "Sales"); CInt 1]]) ->
                        ~ has_label no_float_str (lit "Rent") r).
  { intros r H [_ L]. destruct H as [<-|[]]. discriminate L. }
  destruct (sum_row_not_found no_float_str
              [(lit "T", [[CStr (lit "Sales"); CInt 1]])] (lit "U") (lit "Sales"))
    as (A & _ & _ & C & _).
  destruct (sum_row_not_found no_float_str
              [(lit "T", [[CStr (lit "Sales"); CInt 1]])] (lit "T") (lit "Rent"))
    as (_ & B & _ & _ & D).
  split; [apply A; reflexivity|].
  split; [apply (B [[CStr (lit "Sales"); CInt 1]]);
          [reflexivity | right; reflexivity | exact N]|].
  split; [apply C; reflexivity|].
  apply (D _ [[CStr (lit "Sales"); CInt 1]]);
    [reflexivity | right; reflexivity | exact N].
Defined.

Lemma details_ok_iff_listed_witness :
  let p := {| file_path := EXCEL_FILE_PATH; sheets_data := [];
              tables := [(lit "T", [[CStr (lit "Sales"); CInt 1]])] |} in
  is_200 (get_table_details no_float_str (Some p) (lit "T")) = true
  /\ status_of (get_table_details no_float_str (Some p) (lit "U")) = 404%Z.
Proof.
  intro p. split.
  - apply (details_ok_iff_listed no_float_str p (lit "T") [lit "T"]);
      [reflexivity | now left].
  - apply (details_ok_iff_listed no_float_str p (lit "U") [lit "T"]);
      [reflexivity|]. intros [H|[]]. discriminate H.
Defined.

Lemma coercion_ignores_other_characters_witness :
  _extract_numeric_value (CStr (lit "$2" ++ ","%char :: lit "000")) =
  _extract_numeric_value (CStr (lit "$2" ++ lit "000")).
Proof.
  apply coercion_ignores_other_characters. reflexivity.
Defined.

Lemma no_minus_no_negative_witness :
  negative (float_of_int 500) = false.
Proof.
  apply (no_minus_no_negative (lit "(500)")); [|reflexivity].
  intro H. simpl in H.
  repeat (destruct H as [H|H]; [discriminate H|]). exact H.
Defined.

Lemma coercible_text_shape_witness :
  (exists (neg : bool) ip fp (point : bool),
      numeric_chars (lit "-$1,234.50") =
        (if neg then ["-"%char] else []) ++ ip
        ++ (if point then ["."%char] else []) ++ fp
      /\ forallb isdigit ip = true /\ forallb isdigit fp = true
      /\ ip ++ fp <> [])
  /\ ~ In "-"%char (tl (numeric_chars (lit "-$1,234.50"))).
Proof.
  destruct (_extract_numeric_value (CStr (lit "-$1,234.50"))) as [f|] eqn:E;
    [|vm_compute in E; discriminate E].
  exact (coercible_text_shape (lit "-$1,234.50") f E).
Defined.

Lemma sum_cells_is_float_sum_witness :
  sum_cells [CStr (lit "abc"); CInt 7; CNone] = PyFloat (float_of_int 7)
  /\ sum_cells [CInt 1; CStr (lit "2")] =
     PyFloat (fold_left fadd (coerced [CInt 1; CStr (lit "2")]) fzero).
Proof.
  split.
  - destruct (sum_cells_is_float_sum [CStr (lit "abc"); CInt 7; CNone])
      as (_ & _ & S).
    apply S; [reflexivity|]. intro H. vm_compute in H. discriminate H.
  - destruct (sum_cells_is_float_sum [CInt 1; CStr (lit "2")]) as (_ & F & _).
    apply F. intro H. vm_compute in H. discriminate H.
Defined.

Lemma identified_names_kept_witness :
  In (lit "Revenue")
     (get_table_names
        (_identify_tables no_float_str
           [(lit "Sheet1", [[CStr (lit "Revenue")]; [CStr (lit "a"); CInt 4]]);
            (lit "Sheet2", [[CStr (lit "x")]])] [])).
Proof.
  apply (identified_names_kept no_float_str _ []
           (lit "Sheet1") [[CStr (lit "Revenue")]; [CStr (lit "a"); CInt 4]]);
    [now left | right; now left].
Defined.
